(** * MuGit: repository state derivation over an external git runner

    A shallow embedding of [UefiBuild/MuBuild/MuGit.py].  The module is a
    sequence of calls to an external process runner ([RunCmd]) whose
    captured output is trimmed and mapped onto the fields of a [Repo]
    object.  The runner and the filesystem predicate are parameters of the
    development; every call is recorded in a trace so that statements about
    which queries are issued (and how many) can be made. *)

From stdpp Require Import gmap strings list fin_maps.
From Stdlib Require Import ZArith Ascii String.

#[local] Set Warnings "-register-all".
#[local] Open Scope string_scope.
#[local] Open Scope Z_scope.

(** ** Python [str] operations used by the module

    Text is modelled by [string]; a character stands for the code point
    with the same number (U+0000 to U+00FF). *)
Module PyStr.

(** [str.isspace] on one code point, as used by [str.strip()] without
    arguments: TAB..CR, FS..US and SPACE, plus NEL and NBSP. *)
Definition isspace (c : ascii) : bool :=
  let n := N_of_ascii c in
  ((9 <=? n) && (n <=? 13) || (28 <=? n) && (n <=? 32)
   || (n =? 133) || (n =? 160))%N.

Fixpoint lstrip (s : string) : string :=
  match s with
  | "" => ""
  | String c s' => if isspace c then lstrip s' else s
  end.

Fixpoint rstrip (s : string) : string :=
  match s with
  | "" => ""
  | String c s' =>
      match rstrip s' with
      | "" => if isspace c then "" else String c ""
      | r => String c r
      end
  end.

(** [s.strip()] *)
Definition strip (s : string) : string := rstrip (lstrip s).

(** [s.lower()] on one code point: A-Z, and the upper-case letters of
    the Latin-1 block (all of C0..DE but the multiplication sign). *)
Definition lower_char (c : ascii) : ascii :=
  let n := N_of_ascii c in
  if ((65 <=? n) && (n <=? 90)
      || (192 <=? n) && (n <=? 222) && negb (n =? 215))%N
  then ascii_of_N (n + 32) else c.

Fixpoint lower (s : string) : string :=
  match s with
  | "" => ""
  | String c s' => String (lower_char c) (lower s')
  end.

(** [s.split(sep)] for a separator of one character. *)
Fixpoint split (sep : ascii) (s : string) : list string :=
  match s with
  | "" => [""]
  | String c s' =>
      if Ascii.eqb c sep then "" :: split sep s'
      else match split sep s' with
           | h :: t => String c h :: t
           | [] => [String c ""]
           end
  end.

(** [key.startswith("_")] *)
Definition startswith_underscore (key : string) : bool :=
  match key with
  | String c _ => Ascii.eqb c "_"
  | "" => false
  end.

(** [sep.join(l)] *)
Fixpoint join (sep : string) (l : list string) : string :=
  match l with
  | [] => ""
  | [x] => x
  | x :: rest => x ++ sep ++ join sep rest
  end.

(** [len(s) > 0] *)
Definition nonempty (s : string) : bool :=
  match s with "" => false | _ => true end.

Definition newline : ascii := ascii_of_N 10.

End PyStr.

(** ** Exceptions and results *)

(** A Python exception (an instance of [Exception]): its class name and
    its message. *)
Record Exn : Type := mkExn { exn_class : string; exn_msg : string }.

Inductive Result (A : Type) : Type :=
| Ok (a : A)
| Raise (e : Exn).
Arguments Ok {A} a.
Arguments Raise {A} e.

(** ** Python values held by an [ObjectDict] *)

Inductive PyVal : Type :=
| VNone
| VStr (s : string)
| VList (l : list string)
| VObj (d : gmap string PyVal).

(** ** class ObjectDict

    An instance is its attribute dictionary.  The private list
    [self.__values] lives in that same dictionary under its mangled name. *)
Module ObjectDict.

Definition values_attr : string := "_ObjectDict__values".

Definition AttributeError (what : string) : Exn :=
  mkExn "AttributeError" what.
Definition TypeError (what : string) : Exn :=
  mkExn "TypeError" what.

(** [object.__setattr__(self, key, value)]: the three slots that every
    instance inherits from [object] refuse a value of the kinds stored
    here; any other name, the empty one included, is a plain entry of
    the instance dictionary. *)
Definition object_setattr (self : gmap string PyVal) (key : string)
    (value : PyVal) : Result (gmap string PyVal) :=
  if String.eqb key "__class__" then Raise (TypeError key)
  else if String.eqb key "__dict__" then Raise (TypeError key)
  else if String.eqb key "__weakref__" then Raise (AttributeError key)
  else Ok (<[key := value]> self).

(** [self.__values.append(key)]: a list is appended to; a str or None
    has no attribute [append] (AttributeError); an [ObjectDict] has one
    only when it was set on it as an attribute, and then the call fails,
    as no value stored here can be called (TypeError). *)
Definition values_append (self : gmap string PyVal) (key : string)
    : Result (gmap string PyVal) :=
  match self !! values_attr with
  | Some (VList l) => Ok (<[values_attr := VList (l ++ [key])]> self)
  | Some (VObj d) =>
      match d !! "append" with
      | Some _ => Raise (TypeError "append")
      | None => Raise (AttributeError "append")
      end
  | Some _ => Raise (AttributeError "append")
  | None => Raise (AttributeError values_attr)
  end.

(** [__setattr__(self, key, value)] *)
Definition __setattr__ (self : gmap string PyVal) (key : string)
    (value : PyVal) : Result (gmap string PyVal) :=
  if negb (PyStr.startswith_underscore key) then
    match values_append self key with
    | Ok self' => object_setattr self' key value
    | Raise e => Raise e
    end
  else object_setattr self key value.

(** [__init__(self)]: [self.__values = list()] goes through
    [__setattr__] with a name that starts with an underscore. *)
Definition __init__ : Result (gmap string PyVal) :=
  __setattr__ ∅ values_attr (VList []).

(** [set(self, key, value)] *)
Definition set (self : gmap string PyVal) (key : string) (value : PyVal)
    : Result (gmap string PyVal) :=
  __setattr__ self key value.

(** [getattr(self, key)] *)
Definition getattr (self : gmap string PyVal) (key : string)
    : option PyVal := self !! key.

(** The names declared through [__setattr__], in the order of the
    list that [__str__] iterates.  This reads the private list: it is
    meant for a bag whose private attribute holds a list, as every bag
    built by [ObjectDict()] and public sets does; on any other bag the
    empty list is a convention of this observation, not something the
    code answers. *)
Definition declared (self : gmap string PyVal) : list string :=
  match self !! values_attr with
  | Some (VList l) => l
  | _ => []
  end.

(** The entries of the bag: every attribute whose name is not private. *)
Definition entries (self : gmap string PyVal) : gmap string PyVal :=
  filter (λ kv, PyStr.startswith_underscore kv.1 = false) self.

End ObjectDict.

(** ** A state-and-exception monad

    [M S A] is a computation over a state [S] that returns an [A] or
    raises; the state survives an exception, as Python's does. *)
Definition M (S A : Type) : Type := S -> Result A * S.

Definition ret {S A} (a : A) : M S A := fun s => (Ok a, s).

Definition bind {S A B} (m : M S A) (k : A -> M S B) : M S B :=
  fun s => match m s with
           | (Ok a, s') => k a s'
           | (Raise e, s') => (Raise e, s')
           end.

Definition raise {S A} (e : Exn) : M S A := fun s => (Raise e, s).

(** [try: body / except Exception as e: handler e] *)
Definition try_except {S A} (body : M S A) (handler : Exn -> M S A) : M S A :=
  fun s => match body s with
           | (Ok a, s') => (Ok a, s')
           | (Raise e, s') => handler e s'
           end.

(** A pure step that may raise. *)
Definition lift_result {S A} (r : Result A) : M S A := fun s => (r, s).

Definition gets {S A} (f : S -> A) : M S A := fun s => (Ok (f s), s).
Definition modify {S} (f : S -> S) : M S unit := fun s => (Ok tt, f s).

(** Run a computation over the second component of a paired state. *)
Definition zoom {S T A} (m : M T A) : M (S * T) A :=
  fun st => let '(r, t') := m st.2 in (r, (st.1, t')).

Declare Scope py_scope.
Delimit Scope py_scope with py.
Notation "x <- m ;; k" := (bind m (fun x => k))
  (at level 100, m at next level, right associativity) : py_scope.
Notation "m ;;; k" := (bind m (fun _ => k))
  (at level 100, right associativity) : py_scope.
#[local] Open Scope py_scope.

(** ** The environment: process runner, filesystem, logging *)

(** What a call of [RunCmd] is given: the command line, the working
    directory, and whether an output stream is passed. *)
Record RunArgs : Type := mkRunArgs {
  run_cmd : string;
  run_workingdir : option string;
  run_outstream : bool
}.

(** What a call of [RunCmd] does: it returns an exit code after writing
    text to the output stream, or it raises. *)
Inductive RunResult : Type :=
| Returned (ret : Z) (written : string)
| Raised (e : Exn).

Record Call : Type := mkCall { call_args : RunArgs; call_result : RunResult }.

Inductive Level : Type := DEBUG | ERROR.

(** A logged message.  [MsgSubmodule] is the message of [Repo.submodule],
    ["Calling command on submodule {0} with {1}"], kept with its two
    arguments (the second one is a tuple). *)
Inductive LogMsg : Type :=
| MsgText (s : string)
| MsgExn (e : Exn)
| MsgSubmodule (command : string) (args : list string).

Record LogRecord : Type := mkLog { log_level : Level; log_msg : LogMsg }.

(** [class Repo]: the fields assigned by [__init__]. *)
Record Repo : Type := mkRepo {
  _path : string;
  active_branch : option string;
  bare : bool;
  exists_ : bool;
  remotes : gmap string PyVal;
  initalized : bool;
  url : option string;
  dirty : bool;
  head : option (gmap string PyVal)
}.

Definition set_active_branch (v : option string) (r : Repo) : Repo :=
  mkRepo (_path r) v (bare r) (exists_ r) (remotes r) (initalized r)
         (url r) (dirty r) (head r).
Definition set_bare (v : bool) (r : Repo) : Repo :=
  mkRepo (_path r) (active_branch r) v (exists_ r) (remotes r)
         (initalized r) (url r) (dirty r) (head r).
Definition set_exists (v : bool) (r : Repo) : Repo :=
  mkRepo (_path r) (active_branch r) (bare r) v (remotes r)
         (initalized r) (url r) (dirty r) (head r).
Definition set_remotes (v : gmap string PyVal) (r : Repo) : Repo :=
  mkRepo (_path r) (active_branch r) (bare r) (exists_ r) v
         (initalized r) (url r) (dirty r) (head r).
Definition set_initalized (v : bool) (r : Repo) : Repo :=
  mkRepo (_path r) (active_branch r) (bare r) (exists_ r) (remotes r)
         v (url r) (dirty r) (head r).
Definition set_dirty (v : bool) (r : Repo) : Repo :=
  mkRepo (_path r) (active_branch r) (bare r) (exists_ r) (remotes r)
         (initalized r) (url r) v (head r).
Definition set_head (v : option (gmap string PyVal)) (r : Repo) : Repo :=
  mkRepo (_path r) (active_branch r) (bare r) (exists_ r) (remotes r)
         (initalized r) (url r) (dirty r) v.

(** [os.path.join(path, ".git")] (POSIX flavour). *)
Definition path_join_git (path : string) : string :=
  match path with
  | "" => ".git"
  | _ => if String.eqb (substring (String.length path - 1) 1 path) "/"
         then path ++ ".git" else path ++ "/.git"
  end.

Section Git.

(** The state of everything outside the program (the filesystem, the
    git repositories), the process runner [UtilityFunctions.RunCmd] and
    [os.path.isdir]. *)
Variable Env : Type.
Variable RunCmd : RunArgs -> Env -> RunResult * Env.
Variable isdir : Env -> string -> bool.

Record World : Type := mkWorld {
  env : Env;
  calls : list Call;
  logs : list LogRecord
}.

(** One call of the runner, recorded in the trace. *)
Definition run (a : RunArgs) : M World RunResult :=
  fun w => let '(r, e') := RunCmd a (env w) in
           (Ok r, mkWorld e' (calls w ++ [mkCall a r]) (logs w)).

Definition logging (lvl : Level) (m : LogMsg) : M World unit :=
  modify (fun w => mkWorld (env w) (calls w) (logs w ++ [mkLog lvl m])).

Definition os_path_isdir (p : string) : M World bool :=
  gets (fun w => isdir (env w) p).

(** The block shared by every query:
    [return_buffer = StringIO()],
    [ret = RunCmd(cmd, workingdir=self._path, outstream=return_buffer)],
    [return_buffer.getvalue()].
    The buffer starts empty and holds what the runner wrote. *)
Definition RunCmd_captured (cmd : string) (workingdir : string)
    : M World (Z * string) :=
  let return_buffer := "" in
  r <- run (mkRunArgs cmd (Some workingdir) true) ;;
  match r with
  | Returned code written => ret (code, return_buffer ++ written)
  | Raised e => raise e
  end.

(** [RunCmd(cmd)]: no working directory, no output stream. *)
Definition RunCmd_plain (cmd : string) : M World Z :=
  r <- run (mkRunArgs cmd None false) ;;
  match r with
  | Returned code _ => ret code
  | Raised e => raise e
  end.

Definition cmd_branch : string := "git rev-parse --abbrev-ref HEAD".
Definition cmd_remote : string := "git remote".
Definition cmd_url (remote : string) : string :=
  "git config --get remote." ++ remote ++ ".url".
Definition cmd_status : string := "git status --short".
Definition cmd_unpushed : string :=
  "git log --branches --not --remotes --decorate --oneline".
Definition cmd_head : string := "git rev-parse HEAD".
Definition cmd_bare : string := "git rev-parse --is-bare-repository".

(** [Repo._get_url] *)
Definition _get_url (self : Repo) (remote : string) : M World string :=
  out <- RunCmd_captured (cmd_url remote) (_path self) ;;
  let p1 := PyStr.strip out.2 in
  ret p1.

(** The body of the loop of [_get_remotes], for one remote name. *)
Definition _get_remotes_step (self : Repo) (new_remotes : gmap string PyVal)
    (remote : string) : M World (gmap string PyVal) :=
  url0 <- lift_result ObjectDict.__init__ ;;
  u <- _get_url self remote ;;
  url1 <- lift_result (ObjectDict.set url0 "url" (VStr u)) ;;
  lift_result (ObjectDict.__setattr__ new_remotes remote (VObj url1)).

Fixpoint _get_remotes_loop (self : Repo) (new_remotes : gmap string PyVal)
    (remote_list : list string) : M World (gmap string PyVal) :=
  match remote_list with
  | [] => ret new_remotes
  | remote :: rest =>
      nr <- _get_remotes_step self new_remotes remote ;;
      _get_remotes_loop self nr rest
  end.

(** [Repo._get_remotes] *)
Definition _get_remotes (self : Repo) : M World (gmap string PyVal) :=
  new_remotes <- lift_result ObjectDict.__init__ ;;
  out <- RunCmd_captured cmd_remote (_path self) ;;
  let p1 := PyStr.strip out.2 in
  let remote_list := PyStr.split PyStr.newline p1 in
  _get_remotes_loop self new_remotes remote_list.

(** [Repo._get_dirty] *)
Definition _get_dirty (self : Repo) : M World bool :=
  out <- RunCmd_captured cmd_status (_path self) ;;
  let p1 := PyStr.strip out.2 in
  if PyStr.nonempty p1 then ret true
  else
    out <- RunCmd_captured cmd_unpushed (_path self) ;;
    let p1 := PyStr.strip out.2 in
    if PyStr.nonempty p1 then ret true
    else ret false.

(** [Repo._get_branch] *)
Definition _get_branch (self : Repo) : M World string :=
  out <- RunCmd_captured cmd_branch (_path self) ;;
  let p1 := PyStr.strip out.2 in
  ret p1.

(** [Repo._get_head] *)
Definition _get_head (self : Repo) : M World (gmap string PyVal) :=
  out <- RunCmd_captured cmd_head (_path self) ;;
  let p1 := PyStr.strip out.2 in
  head0 <- lift_result ObjectDict.__init__ ;;
  lift_result (ObjectDict.set head0 "commit" (VStr p1)).

(** [Repo._get_bare] *)
Definition _get_bare (self : Repo) : M World bool :=
  out <- RunCmd_captured cmd_bare (_path self) ;;
  let p1 := PyStr.strip out.2 in
  if String.eqb (PyStr.lower p1) "true" then ret true else ret false.

(** [Repo._get_initalized] *)
Definition _get_initalized (self : Repo) : M World bool :=
  os_path_isdir (path_join_git (_path self)).

(** A method call on [self] inside a computation that also carries the
    object: the method reads [self] and acts on the world. *)
Definition call {A} (method : Repo -> M World A) : M (Repo * World) A :=
  fun st => zoom (method st.1) st.

Definition assign (f : Repo -> Repo) : M (Repo * World) unit :=
  modify (fun st => (f st.1, st.2)).

(** The [try] block of [_update_from_git]. *)
Definition derivation : M (Repo * World) unit :=
  assign (set_exists true) ;;;
  b <- call _get_branch ;; assign (set_active_branch (Some b)) ;;;
  r <- call _get_remotes ;; assign (set_remotes r) ;;;
  h <- call _get_head ;; assign (set_head (Some h)) ;;;
  d <- call _get_dirty ;; assign (set_dirty d) ;;;
  b <- call _get_bare ;; assign (set_bare b) ;;;
  i <- call _get_initalized ;; assign (set_initalized i).

(** [Repo._update_from_git]: returns [None] on every path that
    returns (the [return False] after [raise e] is never reached). *)
Definition _update_from_git : M (Repo * World) unit :=
  d <- call (fun self => os_path_isdir (_path self)) ;;
  if d then
    try_except derivation
      (fun e =>
         p <- gets (fun st => _path st.1) ;;
         zoom (logging ERROR (MsgText ("GIT ERROR for " ++ p))) ;;;
         zoom (logging ERROR (MsgExn e)) ;;;
         raise e)
  else ret tt.

(** [Repo.__init__]: the object with its defaults, then
    [_update_from_git]. *)
Definition Repo_defaults (path : string) : Result Repo :=
  match ObjectDict.__init__ with
  | Ok od => Ok (mkRepo path None true false od false None false None)
  | Raise e => Raise e
  end.

(** [Repo(path)]: the new object is returned when [__init__] returns.
    The path is a text; the default [path=None] of the source is not a
    path ([os.path.isdir(None)] raises a [TypeError]) and is left out. *)
Definition Repo_new (path : string) : M World Repo :=
  fun w =>
    match Repo_defaults path with
    | Raise e => (Raise e, w)
    | Ok self =>
        match _update_from_git (self, w) with
        | (Ok _, (self', w')) => (Ok self', w')
        | (Raise e, (_, w')) => (Raise e, w')
        end
    end.

(** [Repo.submodule(command, *args)] *)
Definition submodule_cmd (command : string) (args : list string) : string :=
  let flags := PyStr.join " " args in
  "git submodule " ++ command ++ " " ++ flags.

Definition submodule (self : Repo) (command : string) (args : list string)
    : M World bool :=
  logging DEBUG (MsgSubmodule command args) ;;;
  let cmd := submodule_cmd command args in
  out <- RunCmd_captured cmd (_path self) ;;
  let ret_code := out.1 in
  let p1 := PyStr.strip out.2 in
  if negb (ret_code =? 0) then
    logging ERROR (MsgText p1) ;;; ret false
  else ret true.

(** [Repo.fetch] *)
Definition fetch (self : Repo) : M World bool :=
  let cmd := "git fetch" in
  out <- RunCmd_captured cmd (_path self) ;;
  let ret_code := out.1 in
  let p1 := PyStr.strip out.2 in
  if negb (ret_code =? 0) then
    logging ERROR (MsgText p1) ;;; ret false
  else ret true.

(** [Repo.pull] *)
Definition pull (self : Repo) : M World bool :=
  let cmd := "git pull" in
  out <- RunCmd_captured cmd (_path self) ;;
  let ret_code := out.1 in
  let p1 := PyStr.strip out.2 in
  if negb (ret_code =? 0) then
    logging ERROR (MsgText p1) ;;; ret false
  else ret true.

(** The command line that [Repo.checkout] builds: from [branch] when it
    is given, else from [commit]; with neither, the local [cmd] is never
    bound. *)
Definition checkout_cmd (branch commit : option string) : option string :=
  match branch, commit with
  | Some b, _ => Some ("git checkout " ++ b)
  | None, Some c => Some ("git checkout " ++ c)
  | None, None => None
  end.

Definition UnboundLocalError (name : string) : Exn :=
  mkExn "UnboundLocalError" name.

(** [Repo.checkout(branch=None, commit=None)]: reading the unbound [cmd]
    raises before [RunCmd] is called; a failed checkout is logged at
    debug level. *)
Definition checkout (self : Repo) (branch commit : option string)
    : M World bool :=
  match checkout_cmd branch commit with
  | None => raise (UnboundLocalError "cmd")
  | Some cmd =>
      out <- RunCmd_captured cmd (_path self) ;;
      let ret_code := out.1 in
      let p1 := PyStr.strip out.2 in
      if negb (ret_code =? 0) then
        logging DEBUG (MsgText p1) ;;; ret false
      else ret true
  end.

(** [Repo.clone_from(url, to_path, shallow=...)] *)
Definition clone_cmd (url to_path : string) (shallow : bool) : string :=
  if shallow then
    "git clone --depth 1 --shallow-submodules --recurse-submodules "
      ++ url ++ " " ++ to_path ++ " "
  else "git clone --recurse-submodules " ++ url ++ " " ++ to_path ++ " ".

Definition clone_from (url to_path : string) (shallow : bool)
    : M World Repo :=
  logging DEBUG (MsgText ("Cloning " ++ url ++ " into " ++ to_path)) ;;;
  let cmd := clone_cmd url to_path shallow in
  _ <- RunCmd_plain cmd ;;
  Repo_new to_path.

End Git.

Arguments mkWorld {Env} _ _ _.
Arguments env {Env} _.
Arguments calls {Env} _.
Arguments logs {Env} _.

(** ** Observations on traces and bags *)

(** The arguments of a query issued from a handle rooted at [path]. *)
Definition query (cmd path : string) : RunArgs :=
  mkRunArgs cmd (Some path) true.

(** The calls added to the trace between two worlds. *)
Definition issued {Env} (w w' : World Env) : list Call :=
  drop (List.length (calls w)) (calls w').

(** The trimmed outputs of the calls of a trace that ran [cmd] and
    returned. *)
Definition trimmed_outputs (cmd : string) (tr : list Call) : list string :=
  omap (fun c =>
          if String.eqb (run_cmd (call_args c)) cmd then
            match call_result c with
            | Returned _ o => Some (PyStr.strip o)
            | Raised _ => None
            end
          else None) tr.

(** A clone invocation is a call whose command line starts with
    [git clone]. *)
Definition is_clone (c : Call) : bool :=
  String.prefix "git clone" (run_cmd (call_args c)).

(** [s] occurs inside [t]. *)
Definition contains (s t : string) : Prop :=
  exists pre post, t = pre ++ s ++ post.

(** [getattr(getattr(bag, name), attr)] *)
Definition nested_attr (bag : gmap string PyVal) (name attr : string)
    : option PyVal :=
  match bag !! name with
  | Some (VObj d) => d !! attr
  | _ => None
  end.

(** Equality of two texts up to the case of the letters A-Z, character by
    character. *)
Definition fold_char (c : ascii) : ascii :=
  let n := N_of_ascii c in
  if ((97 <=? n) && (n <=? 122))%N then ascii_of_N (n - 32) else c.

Fixpoint caseless_eqb (a b : string) : bool :=
  match a, b with
  | "", "" => true
  | String x a', String y b' =>
      Ascii.eqb (fold_char x) (fold_char y) && caseless_eqb a' b'
  | _, _ => false
  end.

Arguments run {Env} RunCmd a _.
Arguments logging {Env} lvl m _.
Arguments os_path_isdir {Env} isdir p _.
Arguments RunCmd_captured {Env} RunCmd cmd workingdir _.
Arguments RunCmd_plain {Env} RunCmd cmd _.
Arguments _get_url {Env} RunCmd self remote _.
Arguments _get_remotes_step {Env} RunCmd self new_remotes remote _.
Arguments _get_remotes_loop {Env} RunCmd self new_remotes remote_list _.
Arguments _get_remotes {Env} RunCmd self _.
Arguments _get_dirty {Env} RunCmd self _.
Arguments _get_branch {Env} RunCmd self _.
Arguments _get_head {Env} RunCmd self _.
Arguments _get_bare {Env} RunCmd self _.
Arguments _get_initalized {Env} isdir self _.
Arguments derivation {Env} RunCmd isdir _.
Arguments _update_from_git {Env} RunCmd isdir _.
Arguments Repo_new {Env} RunCmd isdir path _.
Arguments submodule {Env} RunCmd self command args _.
Arguments fetch {Env} RunCmd self _.
Arguments pull {Env} RunCmd self _.
Arguments checkout {Env} RunCmd self branch commit _.
Arguments clone_from {Env} RunCmd isdir url to_path shallow _.

(** The world after one more call of the runner. *)
Definition after_call {Env} (w : World Env) (a : RunArgs) (r : RunResult)
    (e' : Env) : World Env :=
  mkWorld e' (calls w ++ [mkCall a r]) (logs w).

(** The world after one more log record. *)
Definition after_log {Env} (w : World Env) (lvl : Level) (m : LogMsg)
    : World Env :=
  mkWorld (env w) (calls w) (logs w ++ [mkLog lvl m]).

(** The world after the two error records of the handler of
    [_update_from_git]. *)
Definition after_git_error {Env} (w : World Env) (path : string) (e : Exn)
    : World Env :=
  after_log (after_log w ERROR (MsgText ("GIT ERROR for " ++ path)))
    ERROR (MsgExn e).

(** The object that [Repo.__init__] has built when it calls
    [_update_from_git]. *)
Definition default_repo (path : string) : Repo :=
  mkRepo path None true false {[ ObjectDict.values_attr := VList [] ]}
    false None false None.

(** The record that an URL is wrapped in by [_get_remotes]: a bag whose
    only declared name is [url]. *)
Definition url_record (u : string) : PyVal :=
  VObj (<["url" := VStr u]> {[ ObjectDict.values_attr := VList ["url"] ]}).

(** The arguments of the call made by [clone_from]: [RunCmd(cmd)]. *)
Definition clone_args (url to_path : string) (shallow : bool) : RunArgs :=
  mkRunArgs (clone_cmd url to_path shallow) None false.

(** The trace, read off the state of a computation that also carries
    the object. *)
Definition handle_calls {Env} (st : Repo * World Env) : list Call :=
  calls st.2.

(** ** Traces grow

    [grows tr P m]: whatever [m] returns or raises, it only appends calls
    to the trace (read off the state by [tr]), and each appended call
    satisfies [P]. *)
Definition grows {S A} (tr : S -> list Call) (P : Call -> Prop)
    (m : M S A) : Prop :=
  forall s r s', m s = (r, s') ->
    exists added, tr s' = (tr s ++ added)%list /\ Forall P added.

(** The steps of the derivation sequence that query the runner, and the
    commands that each of them runs. *)
Inductive Step : Type := Branch | Remotes | Head | Dirty | Bare.

Inductive step_cmd : Step -> string -> Prop :=
| sc_branch : step_cmd Branch cmd_branch
| sc_remote : step_cmd Remotes cmd_remote
| sc_url remote : step_cmd Remotes (cmd_url remote)
| sc_head : step_cmd Head cmd_head
| sc_status : step_cmd Dirty cmd_status
| sc_unpushed : step_cmd Dirty cmd_unpushed
| sc_bare : step_cmd Bare cmd_bare.

(** A call made by step [st] of the derivation of a handle rooted at
    [path]: one of its commands, run in that directory with a capturing
    stream. *)
Definition step_query (st : Step) (path : string) (c : Call) : Prop :=
  exists cmd, step_cmd st cmd /\ call_args c = query cmd path.

(** A call of the derivation sequence, of whatever step and directory. *)
Definition derivation_call (c : Call) : Prop :=
  exists st path, step_query st path c.

(** ** Further observations *)

(** The command lines of a trace, in the order of the calls. *)
Definition cmds_of (tr : list Call) : list string :=
  (fun c => run_cmd (call_args c)) <$> tr.

(** A text made of white space only. *)
Fixpoint blank (s : string) : bool :=
  match s with
  | "" => true
  | String c s' => PyStr.isspace c && blank s'
  end.

(** A name that [ObjectDict.__setattr__] records in its list. *)
Definition public (key : string) : Prop :=
  PyStr.startswith_underscore key = false.

(** The value is an [ObjectDict] on which an attribute named [append]
    was set. *)
Definition has_append (v : PyVal) : bool :=
  match v with
  | VObj d => match d !! "append" with Some _ => true | None => false end
  | _ => false
  end.

(** The names that [object.__setattr__] refuses for the values stored
    here. *)
Definition slot_name (key : string) : bool :=
  String.eqb key "__class__" || String.eqb key "__dict__"
  || String.eqb key "__weakref__".

(** The URL lookups of a list of remote names, run one after the other
    on the environment: the trimmed URLs and the environment they leave,
    or nothing when one of the lookups raises. *)
Fixpoint lookups {Env} (RunCmd : RunArgs -> Env -> RunResult * Env)
    (path : string) (names : list string) (e : Env)
    : option (list string * Env) :=
  match names with
  | [] => Some ([], e)
  | n :: rest =>
      match RunCmd (query (cmd_url n) path) e with
      | (Returned _ o, e') =>
          match lookups RunCmd path rest e' with
          | Some (us, e'') => Some (PyStr.strip o :: us, e'')
          | None => None
          end
      | (Raised _, _) => None
      end
  end.

(** The entries of a bag after storing the records of the given names
    and URLs, first to last. *)
Definition store_urls (m : gmap string PyVal) (nus : list (string * string))
    : gmap string PyVal :=
  foldl (fun acc nu => <[nu.1 := url_record nu.2]> acc) m nus.

(** [steps I tr P m]: from a state that satisfies [I], whatever [m]
    returns or raises, the state it leaves satisfies [I], and the trace
    has only grown, by calls that satisfy [P]. *)
Definition steps {S A} (I : S -> Prop) (tr : S -> list Call)
    (P : Call -> Prop) (m : M S A) : Prop :=
  forall s r s', I s -> m s = (r, s') ->
    I s' /\ exists added, tr s' = (tr s ++ added)%list /\ Forall P added.

(** A call made in the directory [path], with an output stream. *)
Definition in_directory (path : string) (c : Call) : Prop :=
  exists cmd, call_args c = query cmd path.

(** What a refresh keeps of the object it works on: its path, its [url],
    and [exists] once it is true. *)
Definition handle_inv (path : string) (u : option string) (ex : bool)
    {Env} (st : Repo * World Env) : Prop :=
  _path st.1 = path /\ url st.1 = u /\ (ex = true -> exists_ st.1 = true).

(** The record that [_get_head] builds: a bag whose only declared name
    is [commit]. *)
Definition head_record (commit : string) : gmap string PyVal :=
  <["commit" := VStr commit]> {[ ObjectDict.values_attr := VList ["commit"] ]}.

(** The calls of the dirty step, after the fact. *)
Inductive dirty_calls (path : string) (d : bool) : list Call -> Prop :=
| dirty_by_status c1 o1 :
    PyStr.strip o1 <> "" -> d = true ->
    dirty_calls path d [mkCall (query cmd_status path) (Returned c1 o1)]
| dirty_by_unpushed c1 o1 c2 o2 :
    PyStr.strip o1 = "" -> d = PyStr.nonempty (PyStr.strip o2) ->
    dirty_calls path d
      [mkCall (query cmd_status path) (Returned c1 o1);
       mkCall (query cmd_unpushed path) (Returned c2 o2)].

(** The log records that an operation adds for an exit code. *)
Definition failure_log (lvl : Level) (code : Z) (o : string)
    : list LogRecord :=
  if code =? 0 then [] else [mkLog lvl (MsgText (PyStr.strip o))].

(** ** Scripted environments, for concrete runs

    The environment is the list of replies still to be given: each call
    of the runner consumes the first one whose command matches. *)
Module Script.

Definition Env : Type := list (string * RunResult).

Fixpoint take_reply (cmd : string) (script : list (string * RunResult))
    : RunResult * list (string * RunResult) :=
  match script with
  | [] => (Returned 128 "", [])
  | (c, r) :: rest =>
      if String.eqb c cmd then (r, rest)
      else let '(r', rest') := take_reply cmd rest in (r', (c, r) :: rest')
  end.

Definition RunCmd (a : RunArgs) (e : Env) : RunResult * Env :=
  take_reply (run_cmd a) e.

(** Only [repo] is a directory. *)
Definition isdir (_ : Env) (p : string) : bool := String.eqb p "repo".

Definition start (script : Env) : World Env := mkWorld script [] [].

(** A handle object rooted at [repo]. *)
Definition repo : Repo := default_repo "repo".

Definition nl : string := String PyStr.newline "".

(** The two remotes of the running example. *)
Definition url_replies : Env :=
  [ (cmd_url "origin", Returned 0 ("https://a/x.git" ++ nl));
    (cmd_url "upstream", Returned 0 ("git@b:y.git" ++ nl)) ].

Definition remote_replies : Env :=
  (cmd_remote, Returned 0 ("origin" ++ nl ++ "upstream" ++ nl))
    :: url_replies.

(** No remote at all; the lookup of the empty name fails with code 1. *)
Definition no_remote_replies : Env :=
  [ (cmd_remote, Returned 0 ""); (cmd_url "", Returned 1 "") ].

(** A clean working tree with one commit that was not pushed. *)
Definition unpushed_replies : Env :=
  [ (cmd_status, Returned 0 nl);
    (cmd_unpushed, Returned 0 ("0a1b2c3 (HEAD -> main) fix" ++ nl)) ].

(** A modified file in the working tree. *)
Definition modified_replies : Env :=
  [ (cmd_status, Returned 0 (" M MuGit.py" ++ nl));
    (cmd_unpushed, Returned 0 "") ].

(** A whole derivation. *)
Definition repo_replies : Env :=
  (((cmd_branch, Returned 0 ("main" ++ nl)) :: remote_replies)
     ++ ((cmd_head, Returned 0 ("0a1b2c3" ++ nl)) :: unpushed_replies)
     ++ [ (cmd_bare, Returned 0 ("false" ++ nl)) ])%list.

(** A clone that succeeds, then a whole derivation. *)
Definition clone_replies : Env :=
  (clone_cmd "https://a/x.git" "repo" true, Returned 0 "") :: repo_replies.

(** The runner fails to start git. *)
Definition OSError : Exn := mkExn "OSError" "git: command not found".
Definition failing_replies : Env := [ (cmd_branch, Raised OSError) ].

(** Queries that exit with a code other than 0. *)
Definition nonzero_replies : Env :=
  [ (cmd_branch, Returned 128 ("HEAD" ++ nl));
    (cmd_url "origin", Returned 1 "");
    (cmd_head, Returned 128 ("HEAD" ++ nl));
    (cmd_status, Returned 128 "");
    (cmd_unpushed, Returned 128 "");
    (cmd_bare, Returned 128 "") ].

(** The lookup of the second remote fails to start git. *)
Definition second_lookup_raises : Env :=
  [ (cmd_remote, Returned 0 ("origin" ++ nl ++ "upstream" ++ nl));
    (cmd_url "origin", Returned 0 ("https://a/x.git" ++ nl));
    (cmd_url "upstream", Raised OSError) ].

(** A clean working tree with nothing to push. *)
Definition clean_replies : Env :=
  [ (cmd_status, Returned 0 nl); (cmd_unpushed, Returned 0 "") ].

(** Operations that fail. *)
Definition fetch_fails : Env :=
  [ ("git fetch", Returned 1 ("fatal: no remote" ++ nl)) ].
Definition fetch_raises : Env := [ ("git fetch", Raised OSError) ].
Definition checkout_fails : Env :=
  [ ("git checkout main", Returned 1 ("error: pathspec" ++ nl)) ].

(** A clone that fails and leaves no directory, and one that cannot
    start. *)
Definition clone_fails : Env :=
  [ (clone_cmd "https://a/x.git" "elsewhere" false,
     Returned 128 "fatal: repository not found") ].
Definition clone_raises : Env :=
  [ (clone_cmd "https://a/x.git" "elsewhere" false, Raised OSError) ].

(** The runner fails to start git for a submodule update. *)
Definition submodule_raises : Env :=
  [ (submodule_cmd "update" ["--init"], Raised OSError) ].

(** A bag as [ObjectDict()] builds it. *)
Definition new_bag : gmap string PyVal :=
  {[ ObjectDict.values_attr := VList [] ]}.

End Script.

(** * Properties *)

(** ** Text *)

Lemma nonempty_true (s : string) : PyStr.nonempty s = true <-> s <> "".
Proof. destruct s; simpl; split; congruence. Qed.

Lemma nonempty_false (s : string) : PyStr.nonempty s = false <-> s = "".
Proof. destruct s; simpl; split; congruence. Qed.

(** On each letter of ["true"], [lower_char] and [fold_char] identify the
    same characters. *)
Lemma lower_fold_letters (c : ascii) :
  Ascii.eqb (PyStr.lower_char c) "t"
  = Ascii.eqb (fold_char c) (fold_char "t")
  /\ Ascii.eqb (PyStr.lower_char c) "r"
     = Ascii.eqb (fold_char c) (fold_char "r")
  /\ Ascii.eqb (PyStr.lower_char c) "u"
     = Ascii.eqb (fold_char c) (fold_char "u")
  /\ Ascii.eqb (PyStr.lower_char c) "e"
     = Ascii.eqb (fold_char c) (fold_char "e").
Proof.
  destruct c as [[] [] [] [] [] [] [] []]; vm_compute; repeat split.
Qed.

(** The test of [_get_bare], [p1.lower() == "true"], accepts exactly the
    texts that equal ["true"] up to the case of their letters. *)
Lemma lower_true_caseless (s : string) :
  String.eqb (PyStr.lower s) "true" = caseless_eqb s "true".
Proof.
  destruct s as [|c1 [|c2 [|c3 [|c4 [|c5 s]]]]]; simpl; try reflexivity.
  all: destruct (lower_fold_letters c1) as (-> & _ & _ & _);
    destruct (Ascii.eqb (fold_char c1) _); simpl; try reflexivity.
  all: destruct (lower_fold_letters c2) as (_ & -> & _ & _);
    destruct (Ascii.eqb (fold_char c2) _); simpl; try reflexivity.
  all: destruct (lower_fold_letters c3) as (_ & _ & -> & _);
    destruct (Ascii.eqb (fold_char c3) _); simpl; try reflexivity.
  all: destruct (lower_fold_letters c4) as (_ & _ & _ & ->);
    destruct (Ascii.eqb (fold_char c4) _); reflexivity.
Qed.


Ltac unfold_monad :=
  unfold bind, ret, raise, lift_result, gets, modify, try_except.

(** ** One query *)
Section Queries.

Context {Env : Type}.
Variable RunCmd : RunArgs -> Env -> RunResult * Env.

Lemma captured_returned cmd path (w : World Env) code o e' :
  RunCmd (query cmd path) (env w) = (Returned code o, e') ->
  RunCmd_captured RunCmd cmd path w
  = (Ok (code, o), after_call w (query cmd path) (Returned code o) e').
Proof.
  intros H. unfold RunCmd_captured, run, query in *. unfold_monad.
  rewrite H. reflexivity.
Qed.

Lemma captured_raised cmd path (w : World Env) e e' :
  RunCmd (query cmd path) (env w) = (Raised e, e') ->
  RunCmd_captured RunCmd cmd path w
  = (Raise e, after_call w (query cmd path) (Raised e) e').
Proof.
  intros H. unfold RunCmd_captured, run, query in *. unfold_monad.
  rewrite H. reflexivity.
Qed.

(** Whatever the runner does, a captured run adds exactly one call to
    the trace, with the command it was given, and logs nothing. *)
Lemma captured_trace cmd path (w w' : World Env) r :
  RunCmd_captured RunCmd cmd path w = (r, w') ->
  exists res e',
    w' = after_call w (query cmd path) res e'
    /\ RunCmd (query cmd path) (env w) = (res, e')
    /\ match res with
       | Returned code o => r = Ok (code, o)
       | Raised e => r = Raise e
       end.
Proof.
  destruct (RunCmd (query cmd path) (env w)) as [[code o|e] e'] eqn:H.
  - rewrite (captured_returned _ _ _ _ _ _ H). intros [= <- <-].
    exists (Returned code o), e'. auto.
  - rewrite (captured_raised _ _ _ _ _ H). intros [= <- <-].
    exists (Raised e), e'. auto.
Qed.

Lemma get_branch_returned self (w : World Env) code o e' :
  RunCmd (query cmd_branch (_path self)) (env w) = (Returned code o, e') ->
  _get_branch RunCmd self w
  = (Ok (PyStr.strip o),
     after_call w (query cmd_branch (_path self)) (Returned code o) e').
Proof.
  intros H. unfold _get_branch, bind.
  rewrite (captured_returned _ _ _ _ _ _ H). reflexivity.
Qed.

Lemma get_url_returned self remote (w : World Env) code o e' :
  RunCmd (query (cmd_url remote) (_path self)) (env w)
  = (Returned code o, e') ->
  _get_url RunCmd self remote w
  = (Ok (PyStr.strip o),
     after_call w (query (cmd_url remote) (_path self))
       (Returned code o) e').
Proof.
  intros H. unfold _get_url, bind.
  rewrite (captured_returned _ _ _ _ _ _ H). reflexivity.
Qed.

Lemma get_head_returned self (w : World Env) code o e' :
  RunCmd (query cmd_head (_path self)) (env w) = (Returned code o, e') ->
  exists h,
    _get_head RunCmd self w
    = (Ok h, after_call w (query cmd_head (_path self)) (Returned code o) e')
    /\ ObjectDict.getattr h "commit" = Some (VStr (PyStr.strip o))
    /\ ObjectDict.declared h = ["commit"].
Proof.
  intros H. unfold _get_head, bind.
  rewrite (captured_returned _ _ _ _ _ _ H). simpl.
  eexists. split; [reflexivity|]. split; reflexivity.
Qed.

Lemma get_bare_returned self (w : World Env) code o e' :
  RunCmd (query cmd_bare (_path self)) (env w) = (Returned code o, e') ->
  _get_bare RunCmd self w
  = (Ok (caseless_eqb (PyStr.strip o) "true"),
     after_call w (query cmd_bare (_path self)) (Returned code o) e').
Proof.
  intros H. unfold _get_bare, bind.
  rewrite (captured_returned _ _ _ _ _ _ H). simpl.
  rewrite lower_true_caseless.
  destruct (caseless_eqb _ _); reflexivity.
Qed.

Lemma get_dirty_status self (w : World Env) code o e' :
  RunCmd (query cmd_status (_path self)) (env w) = (Returned code o, e') ->
  PyStr.strip o <> "" ->
  _get_dirty RunCmd self w
  = (Ok true,
     after_call w (query cmd_status (_path self)) (Returned code o) e').
Proof.
  intros H Hne. unfold _get_dirty, bind.
  rewrite (captured_returned _ _ _ _ _ _ H). simpl.
  apply nonempty_true in Hne. rewrite Hne. reflexivity.
Qed.

Lemma get_dirty_unpushed self (w : World Env) c1 o1 e1 c2 o2 e2 :
  RunCmd (query cmd_status (_path self)) (env w) = (Returned c1 o1, e1) ->
  PyStr.strip o1 = "" ->
  RunCmd (query cmd_unpushed (_path self)) e1 = (Returned c2 o2, e2) ->
  _get_dirty RunCmd self w
  = (Ok (PyStr.nonempty (PyStr.strip o2)),
     after_call
       (after_call w (query cmd_status (_path self)) (Returned c1 o1) e1)
       (query cmd_unpushed (_path self)) (Returned c2 o2) e2).
Proof.
  intros H1 Hempty H2. unfold _get_dirty, bind.
  rewrite (captured_returned _ _ _ _ _ _ H1). simpl.
  rewrite Hempty. simpl.
  rewrite (captured_returned _ _ (after_call w _ _ e1) c2 o2 e2 H2). simpl.
  destruct (PyStr.nonempty _); reflexivity.
Qed.

End Queries.

(** ** Traces grow *)

#[local] Hint Constructors step_cmd : core.

Section Grows.

Context {S : Type} (tr : S -> list Call) (P : Call -> Prop).

Lemma grows_same {A} (m : M S A) :
  (forall s r s', m s = (r, s') -> tr s' = tr s) -> grows tr P m.
Proof.
  intros H s r s' Hm. exists []. rewrite app_nil_r.
  split; [eauto | constructor].
Qed.

Lemma grows_ret {A} (a : A) : grows tr P (ret a).
Proof. apply grows_same. intros s r s' [= _ <-]. reflexivity. Qed.

Lemma grows_raise {A} (e : Exn) : grows tr P (@raise S A e).
Proof. apply grows_same. intros s r s' [= _ <-]. reflexivity. Qed.

Lemma grows_lift_result {A} (x : Result A) : grows tr P (lift_result x).
Proof. apply grows_same. intros s r s' [= _ <-]. reflexivity. Qed.

Lemma grows_gets {A} (f : S -> A) : grows tr P (gets f).
Proof. apply grows_same. intros s r s' [= _ <-]. reflexivity. Qed.

Lemma grows_modify (f : S -> S) :
  (forall s, tr (f s) = tr s) -> grows tr P (modify f).
Proof. intros H. apply grows_same. intros s r s' [= _ <-]. apply H. Qed.

Lemma grows_bind {A B} (m : M S A) (k : A -> M S B) :
  grows tr P m -> (forall a, grows tr P (k a)) -> grows tr P (bind m k).
Proof.
  intros Hm Hk s r s' Hrun. unfold bind in Hrun.
  destruct (m s) as [[a|e] s1] eqn:E.
  - destruct (Hm _ _ _ E) as (t1 & H1 & F1).
    destruct (Hk a _ _ _ Hrun) as (t2 & H2 & F2).
    exists (t1 ++ t2)%list. rewrite H2, H1, <- app_assoc.
    split; [reflexivity | apply Forall_app_2; assumption].
  - injection Hrun as <- <-. eauto.
Qed.

Lemma grows_try_except {A} (body : M S A) (handler : Exn -> M S A) :
  grows tr P body -> (forall e, grows tr P (handler e)) ->
  grows tr P (try_except body handler).
Proof.
  intros Hb Hh s r s' Hrun. unfold try_except in Hrun.
  destruct (body s) as [[a|e] s1] eqn:E.
  - injection Hrun as <- <-. eauto.
  - destruct (Hb _ _ _ E) as (t1 & H1 & F1).
    destruct (Hh e _ _ _ Hrun) as (t2 & H2 & F2).
    exists (t1 ++ t2)%list. rewrite H2, H1, <- app_assoc.
    split; [reflexivity | apply Forall_app_2; assumption].
Qed.

End Grows.

Lemma grows_weaken {S A} (tr : S -> list Call) (P Q : Call -> Prop)
    (m : M S A) :
  (forall c, P c -> Q c) -> grows tr P m -> grows tr Q m.
Proof.
  intros HPQ Hm s r s' Hrun.
  destruct (Hm _ _ _ Hrun) as (t & -> & F).
  exists t. split; [reflexivity | eapply Forall_impl; eauto].
Qed.

Lemma grows_zoom {S T A} (tr : T -> list Call) (P : Call -> Prop)
    (m : M T A) :
  grows tr P m -> grows (fun st : S * T => tr st.2) P (zoom m).
Proof.
  intros Hm [s t] r [s' t'] Hrun. unfold zoom in Hrun. simpl in *.
  destruct (m t) as [r0 t0] eqn:E. injection Hrun as <- <- <-.
  eapply Hm; eauto.
Qed.

Section DerivationTrace.

Context {Env : Type}.
Variable RunCmd : RunArgs -> Env -> RunResult * Env.
Variable isdir : Env -> string -> bool.

Lemma grows_captured st cmd path :
  step_cmd st cmd ->
  grows calls (step_query st path) (RunCmd_captured RunCmd cmd path).
Proof.
  intros Hc w r w' Hrun.
  destruct (captured_trace _ _ _ _ _ _ Hrun) as (res & e' & -> & _ & _).
  eexists. split; [reflexivity|].
  repeat constructor. exists cmd. auto.
Qed.

Lemma grows_logging lvl m (P : Call -> Prop) :
  grows calls P (logging (Env := Env) lvl m).
Proof. apply grows_modify. reflexivity. Qed.

Lemma grows_get_url self remote :
  grows calls (step_query Remotes (_path self))
    (_get_url RunCmd self remote).
Proof.
  unfold _get_url. apply grows_bind; [apply grows_captured; auto|].
  intros; apply grows_ret.
Qed.

Lemma grows_get_remotes_loop self l : forall nr,
  grows calls (step_query Remotes (_path self))
    (_get_remotes_loop RunCmd self nr l).
Proof.
  induction l as [|remote rest IH]; intros nr; simpl.
  - apply grows_ret.
  - apply grows_bind; [|intros; apply IH].
    unfold _get_remotes_step.
    apply grows_bind; [apply grows_lift_result|intros].
    apply grows_bind; [apply grows_get_url|intros].
    apply grows_bind; [apply grows_lift_result|intros].
    apply grows_lift_result.
Qed.

Lemma grows_get_remotes self :
  grows calls (step_query Remotes (_path self)) (_get_remotes RunCmd self).
Proof.
  unfold _get_remotes.
  apply grows_bind; [apply grows_lift_result|intros].
  apply grows_bind; [apply grows_captured; auto|intros].
  apply grows_get_remotes_loop.
Qed.

Lemma grows_get_branch self :
  grows calls (step_query Branch (_path self)) (_get_branch RunCmd self).
Proof.
  unfold _get_branch. apply grows_bind; [apply grows_captured; auto|].
  intros; apply grows_ret.
Qed.

Lemma grows_get_head self :
  grows calls (step_query Head (_path self)) (_get_head RunCmd self).
Proof.
  unfold _get_head. apply grows_bind; [apply grows_captured; auto|].
  intros. apply grows_bind; intros; apply grows_lift_result.
Qed.

Lemma grows_get_dirty self :
  grows calls (step_query Dirty (_path self)) (_get_dirty RunCmd self).
Proof.
  unfold _get_dirty. apply grows_bind; [apply grows_captured; auto|].
  intros a. destruct (PyStr.nonempty _); [apply grows_ret|].
  apply grows_bind; [apply grows_captured; auto|].
  intros b. destruct (PyStr.nonempty _); apply grows_ret.
Qed.

Lemma grows_get_bare self :
  grows calls (step_query Bare (_path self)) (_get_bare RunCmd self).
Proof.
  unfold _get_bare. apply grows_bind; [apply grows_captured; auto|].
  intros a. destruct (String.eqb _ _); apply grows_ret.
Qed.

Lemma grows_get_initalized self (P : Call -> Prop) :
  grows calls P (_get_initalized isdir self).
Proof. apply grows_gets. Qed.

End DerivationTrace.

Lemma step_cmd_not_clone st cmd :
  step_cmd st cmd -> String.prefix "git clone" cmd = false.
Proof. intros []; reflexivity. Qed.

Lemma derivation_call_not_clone c : derivation_call c -> is_clone c = false.
Proof.
  intros (st & path & cmd & Hc & Ha). unfold is_clone. rewrite Ha. simpl.
  eapply step_cmd_not_clone, Hc.
Qed.

(** Only the dirty step runs the two commands of the dirty derivation. *)
Lemma step_cmd_not_dirty st cmd :
  step_cmd st cmd -> st <> Dirty ->
  String.eqb cmd cmd_status = false /\ String.eqb cmd cmd_unpushed = false.
Proof. intros [] Hne; try (split; reflexivity); congruence. Qed.

Section ConstructionTrace.

Context {Env : Type}.
Variable RunCmd : RunArgs -> Env -> RunResult * Env.
Variable isdir : Env -> string -> bool.

Lemma grows_call {A} (P : Call -> Prop) (method : Repo -> M (World Env) A) :
  (forall self, grows calls P (method self)) ->
  grows handle_calls P (call Env method).
Proof.
  intros H st r st' Hrun. unfold call in Hrun.
  eapply (grows_zoom calls P (method st.1)); eauto.
Qed.

Lemma grows_assign (P : Call -> Prop) f : grows handle_calls P (assign Env f).
Proof. apply grows_modify. reflexivity. Qed.

Ltac method_grows lem :=
  apply grows_call; intros self;
  eapply grows_weaken; [|apply lem];
  intros c Hc; eexists _, (_path self); exact Hc.

Lemma grows_derivation :
  grows handle_calls derivation_call (derivation RunCmd isdir).
Proof.
  unfold derivation.
  apply grows_bind; [apply grows_assign|intros _].
  apply grows_bind; [method_grows (grows_get_branch RunCmd)|intros].
  apply grows_bind; [apply grows_assign|intros _].
  apply grows_bind; [method_grows (grows_get_remotes RunCmd)|intros].
  apply grows_bind; [apply grows_assign|intros _].
  apply grows_bind; [method_grows (grows_get_head RunCmd)|intros].
  apply grows_bind; [apply grows_assign|intros _].
  apply grows_bind; [method_grows (grows_get_dirty RunCmd)|intros].
  apply grows_bind; [apply grows_assign|intros _].
  apply grows_bind; [method_grows (grows_get_bare RunCmd)|intros].
  apply grows_bind; [apply grows_assign|intros _].
  apply grows_bind; [|intros; apply grows_assign].
  apply grows_call; intros self. apply grows_get_initalized.
Qed.

Lemma grows_update_from_git :
  grows handle_calls derivation_call (_update_from_git RunCmd isdir).
Proof.
  unfold _update_from_git.
  apply grows_bind.
  { apply grows_call; intros self. apply grows_gets. }
  intros [|]; [|apply grows_ret].
  apply grows_try_except; [apply grows_derivation|intros e].
  apply grows_bind; [apply grows_gets|intros p].
  apply grows_bind; [apply (grows_zoom calls), grows_logging|intros _].
  apply grows_bind; [apply (grows_zoom calls), grows_logging|intros _].
  apply grows_raise.
Qed.

(** Constructing a handle only issues derivation queries. *)
Lemma grows_Repo_new path :
  grows calls derivation_call (Repo_new RunCmd isdir path).
Proof.
  intros w r w' Hrun. unfold Repo_new in Hrun.
  destruct (Repo_defaults path) as [self|e].
  - destruct (_update_from_git RunCmd isdir (self, w))
      as [[[]|e] [self' w1]] eqn:E;
      injection Hrun as <- <-;
      apply (grows_update_from_git _ _ _ E).
  - injection Hrun as <- <-. exists []. rewrite app_nil_r.
    split; [reflexivity|constructor].
Qed.

End ConstructionTrace.

(** ** The dirty step inside a construction *)

Lemma trimmed_outputs_app cmd (t1 t2 : list Call) :
  trimmed_outputs cmd (t1 ++ t2)
  = (trimmed_outputs cmd t1 ++ trimmed_outputs cmd t2)%list.
Proof. apply omap_app. Qed.

Lemma trimmed_outputs_other st path (tr : list Call) :
  Forall (step_query st path) tr -> st <> Dirty ->
  trimmed_outputs cmd_status tr = [] /\ trimmed_outputs cmd_unpushed tr = [].
Proof.
  intros F Hne. induction F as [|c tr (cmd & Hc & Ha) _ [IH1 IH2]].
  - split; reflexivity.
  - destruct (step_cmd_not_dirty _ _ Hc Hne) as [E1 E2].
    unfold trimmed_outputs in *. simpl. rewrite Ha. simpl.
    rewrite E1, E2. auto.
Qed.

Section DirtyStep.

Context {Env : Type}.
Variable RunCmd : RunArgs -> Env -> RunResult * Env.
Variable isdir : Env -> string -> bool.

(** What a returning [_get_dirty] has asked and answered. *)
Lemma get_dirty_inv self (w w' : World Env) d :
  _get_dirty RunCmd self w = (Ok d, w') ->
  exists added s,
    calls w' = (calls w ++ added)%list
    /\ trimmed_outputs cmd_status added = [s]
    /\ ((s <> "" /\ d = true /\ trimmed_outputs cmd_unpushed added = [])
        \/ (s = "" /\ exists u, trimmed_outputs cmd_unpushed added = [u]
                                /\ d = PyStr.nonempty u)).
Proof.
  intros Hrun.
  destruct (RunCmd (query cmd_status (_path self)) (env w))
    as [[c1 o1|e1] e1'] eqn:H1.
  - destruct (PyStr.strip o1) as [|a s1] eqn:Hs.
    + destruct (RunCmd (query cmd_unpushed (_path self)) e1')
        as [[c2 o2|e2] e2'] eqn:H2.
      * rewrite (get_dirty_unpushed _ _ _ _ _ _ _ _ _ H1 Hs H2) in Hrun.
        injection Hrun as <- <-.
        eexists [_; _], "". simpl. rewrite <- app_assoc.
        split; [reflexivity|].
        unfold trimmed_outputs. simpl. rewrite Hs.
        split; [reflexivity|]. right. eauto.
      * unfold _get_dirty, bind in Hrun.
        rewrite (captured_returned _ _ _ _ _ _ _ H1) in Hrun.
        simpl in Hrun. rewrite Hs in Hrun. simpl in Hrun.
        rewrite (captured_raised _ _ _ (after_call w _ _ e1') e2 e2' H2)
          in Hrun.
        discriminate Hrun.
    + assert (Hne : PyStr.strip o1 <> "") by (rewrite Hs; discriminate).
      rewrite (get_dirty_status _ _ _ _ _ _ H1 Hne) in Hrun.
      injection Hrun as <- <-.
      eexists [_], (PyStr.strip o1). simpl.
      split; [reflexivity|].
      unfold trimmed_outputs. simpl.
      split; [reflexivity|]. left. auto.
  - unfold _get_dirty, bind in Hrun.
    rewrite (captured_raised _ _ _ _ _ _ H1) in Hrun. discriminate Hrun.
Qed.

End DirtyStep.

Lemma ObjectDict_init_ok :
  ObjectDict.__init__ = Ok {[ ObjectDict.values_attr := VList [] ]}.
Proof. reflexivity. Qed.

Lemma issued_app {Env} (w w' : World Env) added :
  calls w' = (calls w ++ added)%list -> issued w w' = added.
Proof. intros H. unfold issued. rewrite H. apply drop_app_length. Qed.

Section Construction.

Context {Env : Type}.
Variable RunCmd : RunArgs -> Env -> RunResult * Env.
Variable isdir : Env -> string -> bool.

Ltac run_step m H :=
  match goal with
  | |- context [m ?s ?w] =>
      destruct (m s w) as [[?|?] ?] eqn:H; simpl; [|discriminate]
  end.

(** A derivation that returns has run the dirty step once, between
    calls that are not its own. *)
Lemma derivation_dirty self (w : World Env) self' w' :
  derivation RunCmd isdir (self, w) = (Ok tt, (self', w')) ->
  exists pre mid post s,
    calls w' = (calls w ++ pre ++ mid ++ post)%list
    /\ trimmed_outputs cmd_status pre = []
    /\ trimmed_outputs cmd_unpushed pre = []
    /\ trimmed_outputs cmd_status post = []
    /\ trimmed_outputs cmd_unpushed post = []
    /\ trimmed_outputs cmd_status mid = [s]
    /\ ((s <> "" /\ dirty self' = true
         /\ trimmed_outputs cmd_unpushed mid = [])
        \/ (s = "" /\ exists u, trimmed_outputs cmd_unpushed mid = [u]
                                /\ dirty self' = PyStr.nonempty u)).
Proof.
  unfold derivation, call, assign. unfold_monad. unfold zoom. simpl.
  run_step (_get_branch RunCmd) Hb.
  run_step (_get_remotes RunCmd) Hr.
  run_step (_get_head RunCmd) Hh.
  run_step (_get_dirty RunCmd) Hd.
  run_step (_get_bare RunCmd) Hbb.
  intros [= <- <-]. simpl.
  destruct (grows_get_branch _ _ _ _ _ Hb) as (t1 & E1 & F1).
  destruct (grows_get_remotes _ _ _ _ _ Hr) as (t2 & E2 & F2).
  destruct (grows_get_head _ _ _ _ _ Hh) as (t3 & E3 & F3).
  destruct (get_dirty_inv _ _ _ _ _ Hd) as (mid & s & E4 & Hs & Hcase).
  destruct (grows_get_bare _ _ _ _ _ Hbb) as (t5 & E5 & F5).
  exists (t1 ++ t2 ++ t3)%list, mid, t5, s.
  rewrite E5, E4, E3, E2, E1, <- !app_assoc.
  split; [reflexivity|].
  rewrite !trimmed_outputs_app.
  destruct (trimmed_outputs_other _ _ _ F1) as [-> ->]; [discriminate|].
  destruct (trimmed_outputs_other _ _ _ F2) as [-> ->]; [discriminate|].
  destruct (trimmed_outputs_other _ _ _ F3) as [-> ->]; [discriminate|].
  destruct (trimmed_outputs_other _ _ _ F5) as [-> ->]; [discriminate|].
  auto 10.
Qed.

Ltac run_step_any m H :=
  match goal with
  | |- context [m ?s ?w] =>
      destruct (m s w) as [[?|?] ?] eqn:H; simpl;
      [|intros [= <- <- <-]; reflexivity]
  end.

(** The derivation never assigns [_path]. *)
Lemma derivation_path self (w : World Env) r self' w' :
  derivation RunCmd isdir (self, w) = (r, (self', w')) ->
  _path self' = _path self.
Proof.
  unfold derivation, call, assign. unfold_monad. unfold zoom. simpl.
  run_step_any (_get_branch RunCmd) Hb.
  run_step_any (_get_remotes RunCmd) Hr.
  run_step_any (_get_head RunCmd) Hh.
  run_step_any (_get_dirty RunCmd) Hd.
  run_step_any (_get_bare RunCmd) Hbb.
  intros [= <- <- <-]. reflexivity.
Qed.

(** [Repo(path)] on a directory is the derivation on the default
    object, with the handler of [_update_from_git] around it. *)
Lemma Repo_new_isdir path (w : World Env) :
  isdir (env w) path = true ->
  Repo_new RunCmd isdir path w
  = match derivation RunCmd isdir (default_repo path, w) with
    | (Ok _, (self', w')) => (Ok self', w')
    | (Raise e, (_, w1)) => (Raise e, after_git_error w1 path e)
    end.
Proof.
  intros Hdir. unfold Repo_new, Repo_defaults. rewrite ObjectDict_init_ok.
  fold (default_repo path).
  unfold _update_from_git, call, os_path_isdir.
  unfold_monad. unfold zoom. simpl. rewrite Hdir.
  destruct (derivation _ _ _) as [[[]|e] [self' w1]] eqn:Hder;
    [reflexivity|].
  simpl. rewrite (derivation_path _ _ _ _ _ Hder). reflexivity.
Qed.

(** [Repo(path)] elsewhere is the default object, in the same world. *)
Lemma Repo_new_not_isdir path (w : World Env) :
  isdir (env w) path = false ->
  Repo_new RunCmd isdir path w = (Ok (default_repo path), w).
Proof.
  intros Hdir. unfold Repo_new, Repo_defaults. rewrite ObjectDict_init_ok.
  unfold _update_from_git, call, os_path_isdir.
  unfold_monad. unfold zoom. simpl. rewrite Hdir. reflexivity.
Qed.

(** C1: for a handle whose path is a directory, the derived dirty flag
    is true if and only if the trimmed output of the short-status query
    is non-empty or the trimmed output of the unpushed-commits query is
    non-empty.  The status query is issued exactly once; when its
    trimmed output is empty the unpushed-commits query is issued once
    and the flag is true exactly when that output is non-empty (so it
    is false when both are empty). *)
Theorem dirty_iff_status_or_unpushed path (w w' : World Env) self :
  isdir (env w) path = true ->
  Repo_new RunCmd isdir path w = (Ok self, w') ->
  exists s,
    trimmed_outputs cmd_status (issued w w') = [s]
    /\ (dirty self = true <->
        s <> ""
        \/ exists u, u ∈ trimmed_outputs cmd_unpushed (issued w w')
                     /\ u <> "")
    /\ (s = "" ->
        exists u, trimmed_outputs cmd_unpushed (issued w w') = [u]
                  /\ dirty self = PyStr.nonempty u).
Proof.
  intros Hdir Hnew. rewrite (Repo_new_isdir _ _ Hdir) in Hnew.
  destruct (derivation _ _ _) as [[[]|e] [self' w1]] eqn:Hder;
    [|discriminate Hnew].
  injection Hnew as -> ->.
  destruct (derivation_dirty _ _ _ _ Hder)
    as (pre & mid & post & s & Hcalls & P1 & P2 & Q1 & Q2 & Hs & Hcase).
  rewrite (issued_app _ _ _ Hcalls), !trimmed_outputs_app.
  rewrite P1, P2, Q1, Q2, Hs, !app_nil_r. simpl.
  exists s. split; [reflexivity|].
  destruct Hcase as [(Hne & Hd & Hu) | (He & u & Hu & Hd)].
  - rewrite Hd, Hu. split; [|intros He; contradiction].
    split; auto.
  - rewrite Hd, Hu. split; [|intros _; eauto].
    rewrite nonempty_true. split.
    + intros Hne. right. exists u. split; [apply list_elem_of_here|exact Hne].
    + intros [Hne | (u' & Hin & Hne)]; [contradiction|].
      apply list_elem_of_singleton in Hin. subst u'. exact Hne.
Qed.

End Construction.

Lemma append_assoc (a b c : string) : (a ++ b) ++ c = a ++ b ++ c.
Proof.
  induction a as [|x a IH]; [reflexivity|].
  change (String x ((a ++ b) ++ c) = String x (a ++ b ++ c)).
  rewrite IH. reflexivity.
Qed.

Lemma filter_not_clone (l : list Call) :
  Forall (fun c => is_clone c = false) l -> List.filter is_clone l = [].
Proof.
  induction 1 as [|c l Hc _ IH]; simpl; [reflexivity|].
  rewrite Hc. exact IH.
Qed.

(** ** Attribute bags *)

Lemma public_not_slot key :
  PyStr.startswith_underscore key = false ->
  String.eqb key "__class__" = false
  /\ String.eqb key "__dict__" = false
  /\ String.eqb key "__weakref__" = false.
Proof.
  intros H. repeat split; apply String.eqb_neq; intros ->; discriminate H.
Qed.

(** Setting a public name appends it to the declared names and stores
    the value. *)
Lemma setattr_public (self : gmap string PyVal) key v l :
  PyStr.startswith_underscore key = false ->
  self !! ObjectDict.values_attr = Some (VList l) ->
  ObjectDict.__setattr__ self key v
  = Ok (<[key := v]> (<[ObjectDict.values_attr := VList (l ++ [key])]> self)).
Proof.
  intros Hpub Hl. unfold ObjectDict.__setattr__, ObjectDict.values_append.
  rewrite Hpub, Hl. simpl. unfold ObjectDict.object_setattr.
  destruct (public_not_slot key Hpub) as (-> & -> & ->). reflexivity.
Qed.

(** A new bag given one public name. *)
Lemma set_fresh key v :
  PyStr.startswith_underscore key = false ->
  ObjectDict.set {[ ObjectDict.values_attr := VList [] ]} key v
  = Ok (<[key := v]> {[ ObjectDict.values_attr := VList [key] ]}).
Proof.
  intros Hpub. unfold ObjectDict.set.
  rewrite (setattr_public _ key v []); [|exact Hpub|reflexivity].
  rewrite insert_singleton_eq. reflexivity.
Qed.

Section Claims.

Context {Env : Type}.
Variable RunCmd : RunArgs -> Env -> RunResult * Env.
Variable isdir : Env -> string -> bool.

(** C2: for a path that is not a directory, constructing a handle
    raises nothing, issues no call of the runner (the world is left as
    it was) and every field keeps the default given by [__init__]:
    [exists] false, [bare] true, [initalized] false, [dirty] false,
    [remotes] a bag with no entry and no declared name, [head] and
    [active_branch] None. *)
Theorem construct_not_directory path (w : World Env) :
  isdir (env w) path = false ->
  exists self,
    Repo_new RunCmd isdir path w = (Ok self, w)
    /\ issued w w = []
    /\ _path self = path
    /\ exists_ self = false
    /\ bare self = true
    /\ initalized self = false
    /\ dirty self = false
    /\ ObjectDict.entries (remotes self) = ∅
    /\ ObjectDict.declared (remotes self) = []
    /\ head self = None
    /\ active_branch self = None.
Proof.
  intros Hdir. exists (default_repo path). split.
  - apply Repo_new_not_isdir, Hdir.
  - split; [apply drop_all|]. simpl. repeat split; reflexivity.
Qed.

(** C3: in the dirty derivation, when the short-status query returns
    output that is non-empty once trimmed, the result is true after
    exactly one call of the runner, the status query; the
    unpushed-commits query is not issued. *)
Theorem dirty_short_circuit self (w : World Env) code o e' :
  RunCmd (query cmd_status (_path self)) (env w) = (Returned code o, e') ->
  PyStr.strip o <> "" ->
  exists w',
    _get_dirty RunCmd self w = (Ok true, w')
    /\ issued w w'
       = [mkCall (query cmd_status (_path self)) (Returned code o)]
    /\ Forall (fun c => run_cmd (call_args c) <> cmd_unpushed)
         (issued w w').
Proof.
  intros Hrun Hne. eexists. split.
  - apply (get_dirty_status _ _ _ _ _ _ Hrun Hne).
  - assert (E : issued w
                  (after_call w (query cmd_status (_path self))
                     (Returned code o) e')
                = [mkCall (query cmd_status (_path self))
                     (Returned code o)])
      by (apply issued_app; reflexivity).
    rewrite E. split; [reflexivity|].
    repeat constructor. simpl. discriminate.
Qed.

(** C4: the bare flag derived from an output of the bare-repository
    query is true if and only if the trimmed output equals ["true"] up
    to the case of its letters: ["true"], ["True"] and ["TRUE"] give
    true, any other text (["false"] among them) gives false. *)
Theorem bare_iff_caseless_true self (w : World Env) code o e' :
  RunCmd (query cmd_bare (_path self)) (env w) = (Returned code o, e') ->
  exists b w',
    _get_bare RunCmd self w = (Ok b, w')
    /\ (b = true <-> caseless_eqb (PyStr.strip o) "true" = true)
    /\ (PyStr.strip o ∈ ["true"; "True"; "TRUE"] -> b = true)
    /\ (PyStr.strip o = "false" -> b = false).
Proof.
  intros Hrun. eexists _, _. split.
  - apply (get_bare_returned _ _ _ _ _ _ Hrun).
  - split; [reflexivity|]. split.
    + intros Hin. repeat (apply elem_of_cons in Hin as [-> | Hin]);
        try reflexivity.
      apply elem_of_nil in Hin. contradiction.
    + intros ->. reflexivity.
Qed.

(** C5: when the remote name-list query returns [origin] and
    [upstream] separated by a newline, and the two URL lookups return
    [https://a/x.git] and [git@b:y.git], the resulting bag has exactly
    two entries, [origin.url] and [upstream.url] are those two texts,
    and its declared names are [origin], [upstream] in that order. *)
Theorem remotes_origin_upstream self (w : World Env)
    c0 o0 e0 c1 o1 e1 c2 o2 e2 :
  RunCmd (query cmd_remote (_path self)) (env w) = (Returned c0 o0, e0) ->
  PyStr.strip o0 = "origin" ++ String PyStr.newline "upstream" ->
  RunCmd (query (cmd_url "origin") (_path self)) e0
  = (Returned c1 o1, e1) ->
  PyStr.strip o1 = "https://a/x.git" ->
  RunCmd (query (cmd_url "upstream") (_path self)) e1
  = (Returned c2 o2, e2) ->
  PyStr.strip o2 = "git@b:y.git" ->
  exists bag w',
    _get_remotes RunCmd self w = (Ok bag, w')
    /\ ObjectDict.entries bag
       = {[ "origin" := url_record "https://a/x.git";
            "upstream" := url_record "git@b:y.git" ]}
    /\ size (ObjectDict.entries bag) = 2%nat
    /\ nested_attr bag "origin" "url" = Some (VStr "https://a/x.git")
    /\ nested_attr bag "upstream" "url" = Some (VStr "git@b:y.git")
    /\ ObjectDict.declared bag = ["origin"; "upstream"].
Proof.
  intros H0 S0 H1 S1 H2 S2.
  unfold _get_remotes, bind. rewrite ObjectDict_init_ok. simpl.
  rewrite (captured_returned _ _ _ _ _ _ _ H0). simpl. rewrite S0.
  change (PyStr.split PyStr.newline _) with ["origin"; "upstream"].
  simpl. unfold _get_remotes_step, bind. rewrite ObjectDict_init_ok. simpl.
  rewrite (get_url_returned _ _ _ (after_call w _ _ e0) _ _ _ H1).
  rewrite S1, set_fresh by reflexivity.
  unfold lift_result.
  rewrite (setattr_public _ "origin" _ []) by reflexivity.
  rewrite (get_url_returned _ _ _
             (after_call (after_call w _ _ e0) _ _ e1) _ _ _ H2).
  rewrite S2, set_fresh by reflexivity.
  rewrite (setattr_public _ "upstream" _ ["origin"]) by reflexivity.
  unfold ret.
  eexists _, _. split; [reflexivity|].
  repeat split; vm_compute; reflexivity.
Qed.

(** C6: when the remote name-list query returns output that is empty
    once trimmed, remote enumeration still looks one URL up, for the
    empty name, and the resulting bag has exactly one entry, named by
    the empty text. *)
Theorem remotes_none_spurious_entry self (w : World Env)
    c0 o0 e0 c1 o1 e1 :
  RunCmd (query cmd_remote (_path self)) (env w) = (Returned c0 o0, e0) ->
  PyStr.strip o0 = "" ->
  RunCmd (query (cmd_url "") (_path self)) e0 = (Returned c1 o1, e1) ->
  exists bag w',
    _get_remotes RunCmd self w = (Ok bag, w')
    /\ ObjectDict.declared bag = [""]
    /\ ObjectDict.entries bag = {[ "" := url_record (PyStr.strip o1) ]}
    /\ size (ObjectDict.entries bag) = 1%nat
    /\ ObjectDict.entries bag <> ∅.
Proof.
  intros H0 S0 H1.
  unfold _get_remotes, bind. rewrite ObjectDict_init_ok. simpl.
  rewrite (captured_returned _ _ _ _ _ _ _ H0). simpl. rewrite S0.
  simpl. unfold _get_remotes_step, bind. rewrite ObjectDict_init_ok. simpl.
  rewrite (get_url_returned _ _ _ (after_call w _ _ e0) _ _ _ H1).
  rewrite set_fresh by reflexivity.
  unfold lift_result.
  rewrite (setattr_public _ "" _ []) by reflexivity.
  unfold ret.
  eexists _, _. split; [reflexivity|].
  split; [reflexivity|].
  match goal with
  | |- ObjectDict.entries ?bag = ?m /\ _ =>
      assert (E : ObjectDict.entries bag = m)
        by (unfold url_record; reflexivity)
  end.
  rewrite E. split; [reflexivity|].
  split; [apply map_size_singleton | apply map_non_empty_singleton].
Qed.

(** C7 (amended): when the runner returns an exit code for the
    submodule command line, [submodule] returns true for exit code 0,
    and for any other code it logs the trimmed captured output as an
    error and returns false; it raises exactly when the runner itself
    raises, and then raises the exception of the runner. *)
Theorem submodule_by_exit_code self command args (w : World Env) :
  (forall code o e',
      RunCmd (query (submodule_cmd command args) (_path self)) (env w)
      = (Returned code o, e') ->
      exists w',
        submodule RunCmd self command args w = (Ok (code =? 0), w')
        /\ issued w w'
           = [mkCall (query (submodule_cmd command args) (_path self))
                (Returned code o)]
        /\ logs w'
           = (logs w ++ [mkLog DEBUG (MsgSubmodule command args)]
                ++ if code =? 0 then []
                   else [mkLog ERROR (MsgText (PyStr.strip o))])%list)
  /\ (forall e w',
        submodule RunCmd self command args w = (Raise e, w') <->
        exists e',
          RunCmd (query (submodule_cmd command args) (_path self)) (env w)
          = (Raised e, e')
          /\ w' = after_call
                    (after_log w DEBUG (MsgSubmodule command args))
                    (query (submodule_cmd command args) (_path self))
                    (Raised e) e').
Proof.
  split.
  - intros code o e' Hrun. unfold submodule, bind, logging, modify.
    rewrite (captured_returned _ _ _
               (mkWorld (env w) (calls w)
                  (logs w ++ [mkLog DEBUG (MsgSubmodule command args)]))
               code o e' Hrun).
    simpl. destruct (code =? 0); simpl.
    + eexists. split; [reflexivity|]. split.
      * apply issued_app. reflexivity.
      * reflexivity.
    + eexists. split; [reflexivity|]. split.
      * apply issued_app. reflexivity.
      * simpl. rewrite <- app_assoc. reflexivity.
  - intros e w'. unfold submodule, bind, logging, modify.
    destruct (RunCmd (query (submodule_cmd command args) (_path self))
                (env w)) as [[code o|e0] e1] eqn:Hrun.
    + rewrite (captured_returned _ _ _
                 (mkWorld (env w) (calls w)
                    (logs w ++ [mkLog DEBUG (MsgSubmodule command args)]))
                 code o e1 Hrun).
      simpl. split.
      * destruct (code =? 0); intros H; discriminate H.
      * intros (e' & H & _). discriminate H.
    + rewrite (captured_raised _ _ _
                 (mkWorld (env w) (calls w)
                    (logs w ++ [mkLog DEBUG (MsgSubmodule command args)]))
                 e0 e1 Hrun).
      split.
      * intros [= <- <-]. exists e1. split; reflexivity.
      * intros (e' & [= <- <-] & ->). reflexivity.
Qed.

(** C8 (amended): when the path is a directory and the derivation
    sequence raises an exception, [_update_from_git] logs the path of
    the repository and the exception, and raises that same exception,
    whatever its class; constructing a handle raises only in this
    case, and then raises that same exception. *)
Theorem derivation_failure_reraised path (w : World Env) :
  (forall self e self1 w1,
      _path self = path ->
      isdir (env w) path = true ->
      derivation RunCmd isdir (self, w) = (Raise e, (self1, w1)) ->
      _update_from_git RunCmd isdir (self, w)
      = (Raise e, (self1, after_git_error w1 path e)))
  /\ (forall e w',
        Repo_new RunCmd isdir path w = (Raise e, w') <->
        isdir (env w) path = true
        /\ exists self1 w1,
             derivation RunCmd isdir (default_repo path, w)
             = (Raise e, (self1, w1))
             /\ w' = after_git_error w1 path e).
Proof.
  split.
  - intros self e self1 w1 Hpath Hdir Hder.
    unfold _update_from_git, call, os_path_isdir.
    unfold_monad. unfold zoom. simpl. rewrite Hpath, Hdir, Hder. simpl.
    rewrite (derivation_path _ _ _ _ _ _ _ Hder), Hpath. reflexivity.
  - intros e w'. destruct (isdir (env w) path) eqn:Hdir.
    + rewrite (Repo_new_isdir _ _ _ _ Hdir).
      destruct (derivation _ _ _) as [[[]|e1] [self1 w1]]; split.
      * intros H; discriminate H.
      * intros (_ & s & w2 & H & _); discriminate H.
      * intros [= -> <-]. eauto.
      * intros (_ & s & w2 & [= -> -> ->] & ->). reflexivity.
    + rewrite (Repo_new_not_isdir _ _ _ _ Hdir). split.
      * intros H; discriminate H.
      * intros (H & _); discriminate H.
Qed.

(** C9: [clone_from(url, to_path, shallow=True)] issues exactly one
    clone invocation; its command line holds the depth-1,
    shallow-submodules and recurse-submodules flags with [url] and
    [to_path]; and, the runner having returned, the result is that of
    constructing a new handle from [to_path] in the world that the
    clone has left. *)
Theorem clone_from_shallow url to_path (w : World Env) code o e' :
  RunCmd (clone_args url to_path true) (env w) = (Returned code o, e') ->
  let cmd := clone_cmd url to_path true in
  let clone_call := mkCall (clone_args url to_path true) (Returned code o) in
  cmd = "git clone --depth 1 --shallow-submodules --recurse-submodules "
          ++ url ++ " " ++ to_path ++ " "
  /\ contains "--depth 1" cmd
  /\ contains "--shallow-submodules" cmd
  /\ contains "--recurse-submodules" cmd
  /\ contains url cmd
  /\ contains to_path cmd
  /\ clone_from RunCmd isdir url to_path true w
     = Repo_new RunCmd isdir to_path
         (after_call
            (after_log w DEBUG
               (MsgText ("Cloning " ++ url ++ " into " ++ to_path)))
            (clone_args url to_path true) (Returned code o) e')
  /\ forall r w',
       clone_from RunCmd isdir url to_path true w = (r, w') ->
       List.filter is_clone (issued w w') = [clone_call]
       /\ exists rest, issued w w' = clone_call :: rest.
Proof.
  intros Hrun cmd clone_call.
  split; [reflexivity|].
  split; [exists "git clone ",
            (" --shallow-submodules --recurse-submodules "
               ++ url ++ " " ++ to_path ++ " "); reflexivity|].
  split; [exists "git clone --depth 1 ",
            (" --recurse-submodules " ++ url ++ " " ++ to_path ++ " ");
          reflexivity|].
  split; [exists "git clone --depth 1 --shallow-submodules ",
            (" " ++ url ++ " " ++ to_path ++ " "); reflexivity|].
  split; [exists
            "git clone --depth 1 --shallow-submodules --recurse-submodules ",
            (" " ++ to_path ++ " "); reflexivity|].
  split.
  { exists
      ("git clone --depth 1 --shallow-submodules --recurse-submodules "
         ++ url ++ " "), " ".
    unfold cmd, clone_cmd. rewrite !append_assoc. reflexivity. }
  assert (Hclone :
    clone_from RunCmd isdir url to_path true w
    = Repo_new RunCmd isdir to_path
        (after_call
           (after_log w DEBUG
              (MsgText ("Cloning " ++ url ++ " into " ++ to_path)))
           (clone_args url to_path true) (Returned code o) e')).
  { unfold clone_from, RunCmd_plain, run, logging, after_call, after_log.
    unfold clone_args in *. unfold_monad. simpl in *.
    rewrite Hrun. reflexivity. }
  split; [exact Hclone|].
  intros r w' Hres. rewrite Hclone in Hres.
  destruct (grows_Repo_new _ _ _ _ _ _ Hres) as (rest & Hcalls & Hrest).
  simpl in Hcalls. rewrite <- app_assoc in Hcalls.
  rewrite (issued_app _ _ _ Hcalls). simpl.
  split; [|eauto].
  change (is_clone clone_call) with true.
  rewrite filter_not_clone; [reflexivity|].
  eapply Forall_impl; [exact Hrest|].
  intros c Hc. apply derivation_call_not_clone, Hc.
Qed.

(** C10: each query of the derivation ignores the exit code of the
    runner: whatever code comes back with the captured output, the
    query returns, and its result is computed from the trimmed output
    alone. *)
Theorem queries_ignore_exit_code self (w : World Env) :
  (forall code o e',
      RunCmd (query cmd_branch (_path self)) (env w)
      = (Returned code o, e') ->
      exists w', _get_branch RunCmd self w = (Ok (PyStr.strip o), w'))
  /\ (forall remote code o e',
        RunCmd (query (cmd_url remote) (_path self)) (env w)
        = (Returned code o, e') ->
        exists w',
          _get_url RunCmd self remote w = (Ok (PyStr.strip o), w'))
  /\ (forall code o e',
        RunCmd (query cmd_head (_path self)) (env w)
        = (Returned code o, e') ->
        exists h w',
          _get_head RunCmd self w = (Ok h, w')
          /\ ObjectDict.getattr h "commit" = Some (VStr (PyStr.strip o)))
  /\ (forall c1 o1 e1,
        RunCmd (query cmd_status (_path self)) (env w)
        = (Returned c1 o1, e1) ->
        (PyStr.strip o1 <> "" ->
         exists w', _get_dirty RunCmd self w = (Ok true, w'))
        /\ (PyStr.strip o1 = "" ->
            forall c2 o2 e2,
              RunCmd (query cmd_unpushed (_path self)) e1
              = (Returned c2 o2, e2) ->
              exists w',
                _get_dirty RunCmd self w
                = (Ok (PyStr.nonempty (PyStr.strip o2)), w')))
  /\ (forall code o e',
        RunCmd (query cmd_bare (_path self)) (env w)
        = (Returned code o, e') ->
        exists w',
          _get_bare RunCmd self w
          = (Ok (String.eqb (PyStr.lower (PyStr.strip o)) "true"), w')).
Proof.
  split; [|split; [|split; [|split]]].
  - intros code o e' H. eexists. apply (get_branch_returned _ _ _ _ _ _ H).
  - intros remote code o e' H. eexists.
    apply (get_url_returned _ _ _ _ _ _ _ H).
  - intros code o e' H.
    destruct (get_head_returned _ _ _ _ _ _ H) as (h & Hh & Hc & _).
    eauto.
  - intros c1 o1 e1 H1. split.
    + intros Hne. eexists. apply (get_dirty_status _ _ _ _ _ _ H1 Hne).
    + intros He c2 o2 e2 H2. eexists.
      apply (get_dirty_unpushed _ _ _ _ _ _ _ _ _ H1 He H2).
  - intros code o e' H. eexists.
    rewrite lower_true_caseless.
    apply (get_bare_returned _ _ _ _ _ _ H).
Qed.

End Claims.

(** ** The claims on scripted runs *)

Lemma dirty_iff_status_or_unpushed_run :
  Script.isdir (env (Script.start Script.repo_replies)) "repo" = true
  /\ exists self w',
       Repo_new Script.RunCmd Script.isdir "repo"
         (Script.start Script.repo_replies) = (Ok self, w')
       /\ dirty self = true
       /\ exists s,
            trimmed_outputs cmd_status
              (issued (Script.start Script.repo_replies) w') = [s]
            /\ (dirty self = true <->
                s <> ""
                \/ exists u,
                     u ∈ trimmed_outputs cmd_unpushed
                           (issued (Script.start Script.repo_replies) w')
                     /\ u <> "")
            /\ (s = "" ->
                exists u,
                  trimmed_outputs cmd_unpushed
                    (issued (Script.start Script.repo_replies) w') = [u]
                  /\ dirty self = PyStr.nonempty u).
Proof.
  split; [reflexivity|].
  eexists _, _. split; [vm_compute; reflexivity|].
  split; [reflexivity|].
  apply (dirty_iff_status_or_unpushed Script.RunCmd Script.isdir "repo");
    [reflexivity | vm_compute; reflexivity].
Defined.

Lemma construct_not_directory_run :
  Script.isdir (env (Script.start Script.repo_replies)) "elsewhere" = false
  /\ exists self,
       Repo_new Script.RunCmd Script.isdir "elsewhere"
         (Script.start Script.repo_replies)
       = (Ok self, Script.start Script.repo_replies)
       /\ issued (Script.start Script.repo_replies)
            (Script.start Script.repo_replies) = []
       /\ _path self = "elsewhere"
       /\ exists_ self = false
       /\ bare self = true
       /\ initalized self = false
       /\ dirty self = false
       /\ ObjectDict.entries (remotes self) = ∅
       /\ ObjectDict.declared (remotes self) = []
       /\ head self = None
       /\ active_branch self = None.
Proof.
  split; [reflexivity|].
  apply (construct_not_directory Script.RunCmd Script.isdir "elsewhere").
  reflexivity.
Defined.

Lemma dirty_short_circuit_run :
  Script.RunCmd (query cmd_status "repo") Script.modified_replies
  = (Returned 0 (" M MuGit.py" ++ Script.nl), [(cmd_unpushed, Returned 0 "")])
  /\ PyStr.strip (" M MuGit.py" ++ Script.nl) <> ""
  /\ exists w',
       _get_dirty Script.RunCmd Script.repo
         (Script.start Script.modified_replies) = (Ok true, w')
       /\ issued (Script.start Script.modified_replies) w'
          = [mkCall (query cmd_status "repo")
               (Returned 0 (" M MuGit.py" ++ Script.nl))]
       /\ Forall (fun c => run_cmd (call_args c) <> cmd_unpushed)
            (issued (Script.start Script.modified_replies) w').
Proof.
  split; [reflexivity|]. split; [vm_compute; discriminate|].
  apply (dirty_short_circuit Script.RunCmd Script.repo
           (Script.start Script.modified_replies) 0
           (" M MuGit.py" ++ Script.nl) [(cmd_unpushed, Returned 0 "")]);
    [reflexivity | vm_compute; discriminate].
Defined.

Lemma bare_iff_caseless_true_run :
  Script.RunCmd (query cmd_bare "repo") [(cmd_bare, Returned 0 "TRUE")]
  = (Returned 0 "TRUE", [])
  /\ exists b w',
       _get_bare Script.RunCmd Script.repo
         (Script.start [(cmd_bare, Returned 0 "TRUE")]) = (Ok b, w')
       /\ (b = true <-> caseless_eqb (PyStr.strip "TRUE") "true" = true)
       /\ (PyStr.strip "TRUE" ∈ ["true"; "True"; "TRUE"] -> b = true)
       /\ (PyStr.strip "TRUE" = "false" -> b = false).
Proof.
  split; [reflexivity|].
  apply (bare_iff_caseless_true Script.RunCmd Script.repo
           (Script.start [(cmd_bare, Returned 0 "TRUE")]) 0 "TRUE" []).
  reflexivity.
Defined.

Lemma remotes_origin_upstream_run :
  Script.RunCmd (query cmd_remote "repo") Script.remote_replies
  = (Returned 0 ("origin" ++ Script.nl ++ "upstream" ++ Script.nl),
     Script.url_replies)
  /\ PyStr.strip ("origin" ++ Script.nl ++ "upstream" ++ Script.nl)
     = "origin" ++ String PyStr.newline "upstream"
  /\ Script.RunCmd (query (cmd_url "origin") "repo") Script.url_replies
     = (Returned 0 ("https://a/x.git" ++ Script.nl),
        [(cmd_url "upstream", Returned 0 ("git@b:y.git" ++ Script.nl))])
  /\ PyStr.strip ("https://a/x.git" ++ Script.nl) = "https://a/x.git"
  /\ Script.RunCmd (query (cmd_url "upstream") "repo")
       [(cmd_url "upstream", Returned 0 ("git@b:y.git" ++ Script.nl))]
     = (Returned 0 ("git@b:y.git" ++ Script.nl), [])
  /\ PyStr.strip ("git@b:y.git" ++ Script.nl) = "git@b:y.git"
  /\ exists bag w',
       _get_remotes Script.RunCmd Script.repo
         (Script.start Script.remote_replies) = (Ok bag, w')
       /\ ObjectDict.entries bag
          = {[ "origin" := url_record "https://a/x.git";
               "upstream" := url_record "git@b:y.git" ]}
       /\ size (ObjectDict.entries bag) = 2%nat
       /\ nested_attr bag "origin" "url" = Some (VStr "https://a/x.git")
       /\ nested_attr bag "upstream" "url" = Some (VStr "git@b:y.git")
       /\ ObjectDict.declared bag = ["origin"; "upstream"].
Proof.
  repeat (split; [reflexivity|]).
  eapply (remotes_origin_upstream Script.RunCmd Script.repo
            (Script.start Script.remote_replies)); reflexivity.
Defined.

Lemma remotes_none_spurious_entry_run :
  Script.RunCmd (query cmd_remote "repo") Script.no_remote_replies
  = (Returned 0 "", [(cmd_url "", Returned 1 "")])
  /\ PyStr.strip "" = ""
  /\ Script.RunCmd (query (cmd_url "") "repo") [(cmd_url "", Returned 1 "")]
     = (Returned 1 "", [])
  /\ exists bag w',
       _get_remotes Script.RunCmd Script.repo
         (Script.start Script.no_remote_replies) = (Ok bag, w')
       /\ ObjectDict.declared bag = [""]
       /\ ObjectDict.entries bag = {[ "" := url_record (PyStr.strip "") ]}
       /\ size (ObjectDict.entries bag) = 1%nat
       /\ ObjectDict.entries bag <> ∅.
Proof.
  repeat (split; [reflexivity|]).
  eapply (remotes_none_spurious_entry Script.RunCmd Script.repo
            (Script.start Script.no_remote_replies)); reflexivity.
Defined.

Lemma submodule_by_exit_code_run :
  Script.RunCmd (query (submodule_cmd "update" ["--init"]) "repo")
    [("git submodule update --init", Returned 2 ("fatal: no" ++ Script.nl))]
  = (Returned 2 ("fatal: no" ++ Script.nl), [])
  /\ exists w',
       submodule Script.RunCmd Script.repo "update" ["--init"]
         (Script.start
            [("git submodule update --init",
              Returned 2 ("fatal: no" ++ Script.nl))])
       = (Ok false, w')
       /\ logs w' = [mkLog DEBUG (MsgSubmodule "update" ["--init"]);
                     mkLog ERROR (MsgText "fatal: no")].
Proof.
  split; [reflexivity|].
  destruct (proj1 (submodule_by_exit_code Script.RunCmd Script.repo
                     "update" ["--init"]
                     (Script.start
                        [("git submodule update --init",
                          Returned 2 ("fatal: no" ++ Script.nl))]))
              2 ("fatal: no" ++ Script.nl) [] eq_refl)
    as (w' & Hrun & _ & Hlogs).
  exists w'. split; [exact Hrun | exact Hlogs].
Defined.

(** [submodule] can raise: when the runner raises, here an [OSError]
    because git cannot be started, the exception reaches the caller. *)
Lemma submodule_raises_with_runner :
  exists e w',
    submodule Script.RunCmd Script.repo "update" ["--init"]
      (Script.start Script.submodule_raises) = (Raise e, w')
    /\ e = Script.OSError.
Proof.
  eexists _, _. split; [vm_compute; reflexivity | reflexivity].
Qed.

Lemma derivation_failure_reraised_run :
  Script.isdir (env (Script.start Script.failing_replies)) "repo" = true
  /\ derivation Script.RunCmd Script.isdir
       (Script.repo, Script.start Script.failing_replies)
     = (Raise Script.OSError,
        (set_exists true Script.repo,
         after_call (Script.start Script.failing_replies)
           (query cmd_branch "repo") (Raised Script.OSError) []))
  /\ _update_from_git Script.RunCmd Script.isdir
       (Script.repo, Script.start Script.failing_replies)
     = (Raise Script.OSError,
        (set_exists true Script.repo,
         after_git_error
           (after_call (Script.start Script.failing_replies)
              (query cmd_branch "repo") (Raised Script.OSError) [])
           "repo" Script.OSError)).
Proof.
  split; [reflexivity|]. split; [reflexivity|].
  apply (proj1 (derivation_failure_reraised Script.RunCmd Script.isdir
                  "repo" (Script.start Script.failing_replies)));
    reflexivity.
Defined.

(** The exception that reaches the caller of the constructor is the one
    that the runner raised, here an [OSError]: no other class is put in
    its place. *)
Lemma construction_raises_runner_exception :
  exists e w',
    Repo_new Script.RunCmd Script.isdir "repo"
      (Script.start Script.failing_replies) = (Raise e, w')
    /\ exn_class e = "OSError"
    /\ exn_class e <> "GitDerivationError".
Proof.
  eexists _, _. split; [reflexivity|].
  split; [reflexivity | discriminate].
Qed.

Lemma clone_from_shallow_run :
  Script.RunCmd (clone_args "https://a/x.git" "repo" true)
    Script.clone_replies
  = (Returned 0 "", Script.repo_replies)
  /\ exists self w',
       clone_from Script.RunCmd Script.isdir "https://a/x.git" "repo" true
         (Script.start Script.clone_replies) = (Ok self, w')
       /\ _path self = "repo"
       /\ exists_ self = true
       /\ List.filter is_clone (issued (Script.start Script.clone_replies) w')
          = [mkCall (clone_args "https://a/x.git" "repo" true)
               (Returned 0 "")].
Proof.
  split; [reflexivity|].
  eexists _, _. split; [vm_compute; reflexivity|].
  split; [reflexivity|]. split; [reflexivity|].
  destruct (clone_from_shallow Script.RunCmd Script.isdir
              "https://a/x.git" "repo" (Script.start Script.clone_replies)
              0 "" Script.repo_replies eq_refl)
    as (_ & _ & _ & _ & _ & _ & _ & H).
  refine (proj1 (H _ _ _)). vm_compute; reflexivity.
Defined.

Lemma queries_ignore_exit_code_run :
  (exists w',
      _get_branch Script.RunCmd Script.repo
        (Script.start Script.nonzero_replies) = (Ok "HEAD", w'))
  /\ (exists w',
        _get_url Script.RunCmd Script.repo "origin"
          (Script.start Script.nonzero_replies) = (Ok "", w'))
  /\ (exists h w',
        _get_head Script.RunCmd Script.repo
          (Script.start Script.nonzero_replies) = (Ok h, w')
        /\ ObjectDict.getattr h "commit" = Some (VStr "HEAD"))
  /\ (exists w',
        _get_dirty Script.RunCmd Script.repo
          (Script.start Script.nonzero_replies) = (Ok false, w'))
  /\ (exists w',
        _get_bare Script.RunCmd Script.repo
          (Script.start Script.nonzero_replies) = (Ok false, w')).
Proof.
  destruct (queries_ignore_exit_code Script.RunCmd Script.repo
              (Script.start Script.nonzero_replies))
    as (Hbranch & Hurl & Hhead & Hdirty & Hbare).
  split; [exact (Hbranch 128 ("HEAD" ++ Script.nl) _ eq_refl)|].
  split; [exact (Hurl "origin" 1 "" _ eq_refl)|].
  split; [exact (Hhead 128 ("HEAD" ++ Script.nl) _ eq_refl)|].
  split; [|exact (Hbare 128 "" _ eq_refl)].
  exact (proj2 (Hdirty 128 "" _ eq_refl) eq_refl 128 "" _ eq_refl).
Defined.

(** * Further properties *)

(** ** Text *)

Lemma join_split (s : string) :
  PyStr.join (String PyStr.newline "") (PyStr.split PyStr.newline s) = s.
Proof.
  induction s as [|c s IH]; [reflexivity|].
  simpl. destruct (Ascii.eqb_spec c PyStr.newline) as [->|Hne].
  - destruct (PyStr.split PyStr.newline s) as [|h t] eqn:E.
    + destruct s; simpl in E; [discriminate E|].
      destruct (Ascii.eqb _ _); [discriminate E|].
      destruct (PyStr.split _ s); discriminate E.
    + change (PyStr.join (String PyStr.newline "") ("" :: h :: t))
        with (String PyStr.newline (PyStr.join (String PyStr.newline "") (h :: t))).
      rewrite IH. reflexivity.
  - destruct (PyStr.split PyStr.newline s) as [|h t] eqn:E.
    + destruct s; simpl in E; [discriminate E|].
      destruct (Ascii.eqb _ _); [discriminate E|].
      destruct (PyStr.split _ s); discriminate E.
    + destruct t as [|h' t].
      * simpl in *. rewrite IH. reflexivity.
      * change (PyStr.join (String PyStr.newline "") (String c h :: h' :: t))
          with (String c (PyStr.join (String PyStr.newline "") (h :: h' :: t))).
        rewrite IH. reflexivity.
Qed.

Lemma rstrip_empty_iff s : PyStr.rstrip s = "" <-> blank s = true.
Proof.
  induction s as [|c s IH]; simpl; [tauto|].
  destruct (PyStr.rstrip s) as [|a r] eqn:E.
  - destruct (PyStr.isspace c); simpl.
    + rewrite <- IH. tauto.
    + split; discriminate.
  - split; [discriminate|]. intros H. apply andb_true_iff in H as [_ H].
    apply IH in H. discriminate H.
Qed.

Lemma blank_lstrip s : blank (PyStr.lstrip s) = blank s.
Proof.
  induction s as [|c s IH]; simpl; [reflexivity|].
  destruct (PyStr.isspace c) eqn:E; simpl; [exact IH|].
  rewrite E. reflexivity.
Qed.

Lemma strip_empty_iff s : PyStr.strip s = "" <-> blank s = true.
Proof. unfold PyStr.strip. rewrite rstrip_empty_iff, blank_lstrip. tauto. Qed.

(** ** Attribute bags, in general *)

Lemma public_not_values key : public key -> key <> ObjectDict.values_attr.
Proof. intros H ->. discriminate H. Qed.

Lemma slot_name_private key :
  slot_name key = true -> PyStr.startswith_underscore key = true.
Proof.
  unfold slot_name. rewrite !orb_true_iff, !String.eqb_eq.
  intros [[-> | ->] | ->]; reflexivity.
Qed.

Lemma object_setattr_ok self key v :
  slot_name key = false ->
  ObjectDict.object_setattr self key v = Ok (<[key := v]> self).
Proof.
  unfold slot_name, ObjectDict.object_setattr. rewrite !orb_false_iff.
  intros [[-> ->] ->]. reflexivity.
Qed.

Lemma object_setattr_raises self key v :
  slot_name key = true ->
  exists e, ObjectDict.object_setattr self key v = Raise e.
Proof.
  unfold slot_name, ObjectDict.object_setattr.
  destruct (String.eqb key "__class__"); [eauto|].
  destruct (String.eqb key "__dict__"); [eauto|].
  destruct (String.eqb key "__weakref__"); [eauto|]. discriminate.
Qed.

Lemma public_slot_false key : public key -> slot_name key = false.
Proof.
  intros H. destruct (slot_name key) eqn:E; [|reflexivity].
  apply slot_name_private in E. unfold public in H. congruence.
Qed.

(** What a successful [__setattr__] has done. *)
Lemma setattr_ok_inv self key v self' :
  ObjectDict.__setattr__ self key v = Ok self' ->
  slot_name key = false
  /\ ((public key /\ exists l,
         self !! ObjectDict.values_attr = Some (VList l)
         /\ self' = <[key := v]>
                      (<[ObjectDict.values_attr := VList (l ++ [key])]> self))
      \/ (PyStr.startswith_underscore key = true
          /\ self' = <[key := v]> self)).
Proof.
  unfold ObjectDict.__setattr__, ObjectDict.values_append.
  destruct (PyStr.startswith_underscore key) eqn:Hk; simpl.
  - intros H. destruct (slot_name key) eqn:Hs.
    + destruct (object_setattr_raises self key v Hs) as [e He].
      rewrite He in H. discriminate H.
    + rewrite (object_setattr_ok _ _ _ Hs) in H. injection H as <-. auto.
  - rewrite (public_slot_false key Hk). split; [reflexivity|]. left.
    split; [exact Hk|].
    destruct (self !! ObjectDict.values_attr) as [[| |l|d]|] eqn:E;
      try discriminate H.
    + rewrite object_setattr_ok in H by (apply public_slot_false, Hk).
      injection H as <-. eauto.
    + destruct (d !! "append"); discriminate H.
Qed.

(** X1: what [__setattr__] stores can be read back: after a set that
    returns, [getattr] of the key gives the value, and every other
    attribute but the private list of names is as before. *)
Theorem setattr_getattr self key v self' :
  ObjectDict.__setattr__ self key v = Ok self' ->
  ObjectDict.getattr self' key = Some v
  /\ forall k, k <> key -> k <> ObjectDict.values_attr ->
       ObjectDict.getattr self' k = ObjectDict.getattr self k.
Proof.
  intros H. unfold ObjectDict.getattr.
  destruct (setattr_ok_inv _ _ _ _ H) as [_ [(Hp & l & Hl & ->) | (Hp & ->)]].
  - split; [apply lookup_insert_eq|]. intros k Hk Hv.
    rewrite !lookup_insert_ne by congruence. reflexivity.
  - split; [apply lookup_insert_eq|]. intros k Hk Hv.
    rewrite !lookup_insert_ne by congruence. reflexivity.
Qed.

(** X2: a set of a public name that returns appends the name to the
    declared names, also when the name is there already; a set of a
    private name other than the list itself leaves them as they are. *)
Theorem setattr_declared self key v self' :
  ObjectDict.__setattr__ self key v = Ok self' ->
  (public key ->
   ObjectDict.declared self' = (ObjectDict.declared self ++ [key])%list)
  /\ (PyStr.startswith_underscore key = true ->
      key <> ObjectDict.values_attr ->
      ObjectDict.declared self' = ObjectDict.declared self).
Proof.
  intros H. unfold ObjectDict.declared.
  destruct (setattr_ok_inv _ _ _ _ H) as [_ [(Hp & l & Hl & ->) | (Hp & ->)]].
  - split.
    + intros _. rewrite lookup_insert_ne by (apply public_not_values, Hp).
      rewrite lookup_insert_eq, Hl. reflexivity.
    + unfold public in Hp. congruence.
  - split.
    + unfold public. congruence.
    + intros _ Hne. rewrite lookup_insert_ne by congruence. reflexivity.
Qed.

(** X3: [__setattr__] raises exactly when the name is one that
    [object.__setattr__] refuses, or when the name is public and the
    private attribute that should hold the list of names does not hold a
    list. *)
Theorem setattr_raises_iff self key v :
  (exists e, ObjectDict.__setattr__ self key v = Raise e) <->
  slot_name key = true
  \/ (public key /\ forall l, self !! ObjectDict.values_attr <> Some (VList l)).
Proof.
  split.
  - intros [e H]. unfold ObjectDict.__setattr__, ObjectDict.values_append in H.
    destruct (PyStr.startswith_underscore key) eqn:Hk; simpl in H.
    + left. destruct (slot_name key) eqn:Hs; [reflexivity|].
      rewrite object_setattr_ok in H by exact Hs. discriminate H.
    + right. split; [exact Hk|]. intros l Hl. rewrite Hl in H.
      rewrite object_setattr_ok in H by (apply public_slot_false, Hk).
      discriminate H.
  - intros [Hs | [Hp Hl]].
    + unfold ObjectDict.__setattr__.
      rewrite (slot_name_private _ Hs). simpl.
      apply object_setattr_raises, Hs.
    + unfold ObjectDict.__setattr__, ObjectDict.values_append.
      unfold public in Hp. rewrite Hp. simpl.
      destruct (self !! ObjectDict.values_attr) as [[| |l|d]|] eqn:E; eauto.
      * exfalso. apply (Hl l). reflexivity.
      * destruct (d !! "append"); eauto.
Qed.

(** X4: a set of the mangled name of the private list itself is
    accepted; when the value is not a list, every later set of a public
    name raises: a [TypeError] when the value is an [ObjectDict] on
    which an attribute named [append] was set, an [AttributeError]
    otherwise. *)
Theorem values_clobbered self v :
  (forall l, v <> VList l) ->
  exists self',
    ObjectDict.__setattr__ self ObjectDict.values_attr v = Ok self'
    /\ forall key v', public key ->
         ObjectDict.__setattr__ self' key v'
         = Raise (if has_append v then ObjectDict.TypeError "append"
                  else ObjectDict.AttributeError "append").
Proof.
  intros Hv. exists (<[ObjectDict.values_attr := v]> self).
  split; [reflexivity|].
  intros key v' Hp. unfold ObjectDict.__setattr__, ObjectDict.values_append.
  unfold public in Hp. rewrite Hp. simpl. rewrite lookup_insert_eq.
  destruct v as [|s|l|d]; try reflexivity.
  - exfalso. apply (Hv l). reflexivity.
  - simpl. destruct (d !! "append"); reflexivity.
Qed.

(** ** What a refresh keeps *)
Section Steps.
Context {S : Type} (I : S -> Prop) (tr : S -> list Call) (P : Call -> Prop).

Lemma steps_same {A} (m : M S A) :
  (forall s r s', I s -> m s = (r, s') -> I s' /\ tr s' = tr s) ->
  steps I tr P m.
Proof.
  intros H s r s' Hi Hm. destruct (H _ _ _ Hi Hm) as [Hi' Ht].
  split; [exact Hi'|]. exists []. rewrite app_nil_r. split; [exact Ht|constructor].
Qed.

Lemma steps_ret {A} (a : A) : steps I tr P (ret a).
Proof. apply steps_same. intros s r s' Hi [= _ <-]. auto. Qed.

Lemma steps_raise {A} (e : Exn) : steps I tr P (@raise S A e).
Proof. apply steps_same. intros s r s' Hi [= _ <-]. auto. Qed.

Lemma steps_gets {A} (f : S -> A) : steps I tr P (gets f).
Proof. apply steps_same. intros s r s' Hi [= _ <-]. auto. Qed.

Lemma steps_modify (f : S -> S) :
  (forall s, I s -> I (f s) /\ tr (f s) = tr s) -> steps I tr P (modify f).
Proof. intros H. apply steps_same. intros s r s' Hi [= _ <-]. auto. Qed.

Lemma steps_bind {A B} (m : M S A) (k : A -> M S B) :
  steps I tr P m -> (forall a, steps I tr P (k a)) -> steps I tr P (bind m k).
Proof.
  intros Hm Hk s r s' Hi Hrun. unfold bind in Hrun.
  destruct (m s) as [[a|e] s1] eqn:E.
  - destruct (Hm _ _ _ Hi E) as (Hi1 & t1 & H1 & F1).
    destruct (Hk a _ _ _ Hi1 Hrun) as (Hi2 & t2 & H2 & F2).
    split; [exact Hi2|]. exists (t1 ++ t2)%list.
    rewrite H2, H1, <- app_assoc.
    split; [reflexivity | apply Forall_app_2; assumption].
  - injection Hrun as <- <-. eauto.
Qed.

Lemma steps_try_except {A} (body : M S A) (handler : Exn -> M S A) :
  steps I tr P body -> (forall e, steps I tr P (handler e)) ->
  steps I tr P (try_except body handler).
Proof.
  intros Hb Hh s r s' Hi Hrun. unfold try_except in Hrun.
  destruct (body s) as [[a|e] s1] eqn:E.
  - injection Hrun as <- <-. eauto.
  - destruct (Hb _ _ _ Hi E) as (Hi1 & t1 & H1 & F1).
    destruct (Hh e _ _ _ Hi1 Hrun) as (Hi2 & t2 & H2 & F2).
    split; [exact Hi2|]. exists (t1 ++ t2)%list.
    rewrite H2, H1, <- app_assoc.
    split; [reflexivity | apply Forall_app_2; assumption].
Qed.

End Steps.

Section Refresh.
Context {Env : Type}.
Variable RunCmd : RunArgs -> Env -> RunResult * Env.
Variable isdir : Env -> string -> bool.
Variables (path : string) (u : option string) (ex : bool).

Lemma steps_call {A} (method : Repo -> M (World Env) A) st :
  (forall self, grows calls (step_query st (_path self)) (method self)) ->
  steps (handle_inv path u ex) handle_calls (in_directory path)
    (call Env method).
Proof.
  intros H [self w] r [self' w'] Hi Hrun. unfold call, zoom in Hrun.
  simpl in Hrun. destruct (method self w) as [r0 w0] eqn:E.
  injection Hrun as <- <- <-. split; [exact Hi|].
  destruct (H _ _ _ _ E) as (added & Hc & F). exists added.
  split; [exact Hc|]. destruct Hi as (Hp & _). simpl in Hp. rewrite Hp in F.
  eapply Forall_impl; [exact F|]. intros c (cmd & _ & Hc'). exists cmd. exact Hc'.
Qed.

Lemma steps_call_quiet {A} (method : Repo -> M (World Env) A) :
  (forall self w r w', method self w = (r, w') -> calls w' = calls w) ->
  steps (handle_inv path u ex) handle_calls (in_directory path)
    (call Env method).
Proof.
  intros H. apply steps_same. intros [self w] r [self' w'] Hi Hrun.
  unfold call, zoom in Hrun. simpl in Hrun.
  destruct (method self w) as [r0 w0] eqn:E.
  injection Hrun as <- <- <-. split; [exact Hi|]. apply (H _ _ _ _ E).
Qed.

Lemma steps_assign f :
  (forall r, _path (f r) = _path r /\ url (f r) = url r
             /\ (exists_ r = true -> exists_ (f r) = true)) ->
  steps (handle_inv path u ex) handle_calls (in_directory path)
    (assign Env f).
Proof.
  intros H. apply steps_modify. intros [self w] (Hp & Hu & He). simpl in *.
  destruct (H self) as (H1 & H2 & H3).
  split; [|reflexivity]. unfold handle_inv. simpl.
  rewrite H1, H2. auto.
Qed.

Lemma steps_zoom_logging lvl m :
  steps (handle_inv path u ex) handle_calls (in_directory path)
    (zoom (S := Repo) (logging (Env := Env) lvl m)).
Proof.
  apply steps_same. intros [self w] r [self' w'] Hi [= _ <- <-]. auto.
Qed.

Lemma steps_derivation :
  steps (handle_inv path u ex) handle_calls (in_directory path)
    (derivation RunCmd isdir).
Proof.
  unfold derivation.
  apply steps_bind; [apply steps_assign; intros; simpl; auto|intros _].
  apply steps_bind; [apply (steps_call _ Branch), grows_get_branch|intros].
  apply steps_bind; [apply steps_assign; intros; simpl; auto|intros _].
  apply steps_bind; [apply (steps_call _ Remotes), grows_get_remotes|intros].
  apply steps_bind; [apply steps_assign; intros; simpl; auto|intros _].
  apply steps_bind; [apply (steps_call _ Head), grows_get_head|intros].
  apply steps_bind; [apply steps_assign; intros; simpl; auto|intros _].
  apply steps_bind; [apply (steps_call _ Dirty), grows_get_dirty|intros].
  apply steps_bind; [apply steps_assign; intros; simpl; auto|intros _].
  apply steps_bind; [apply (steps_call _ Bare), grows_get_bare|intros].
  apply steps_bind; [apply steps_assign; intros; simpl; auto|intros _].
  apply steps_bind; [|intros; apply steps_assign; intros; simpl; auto].
  apply steps_call_quiet. intros self w r w' [= _ <-]. reflexivity.
Qed.

Lemma steps_update_from_git :
  steps (handle_inv path u ex) handle_calls (in_directory path)
    (_update_from_git RunCmd isdir).
Proof.
  unfold _update_from_git.
  apply steps_bind.
  { apply steps_call_quiet. intros self w r w' [= _ <-]. reflexivity. }
  intros [|]; [|apply steps_ret].
  apply steps_try_except; [apply steps_derivation|intros e].
  apply steps_bind; [apply steps_gets|intros p].
  apply steps_bind; [apply steps_zoom_logging|intros _].
  apply steps_bind; [apply steps_zoom_logging|intros _].
  apply steps_raise.
Qed.

End Refresh.

Section RefreshClaims.
Context {Env : Type}.
Variable RunCmd : RunArgs -> Env -> RunResult * Env.
Variable isdir : Env -> string -> bool.

(** X10: whatever [_update_from_git] returns or raises, it leaves
    [_path] and [url] as they were, never turns [exists] from true to
    false, and runs every command in the directory of the handle. *)
Theorem refresh_invariants self (w : World Env) r self' w' :
  _update_from_git RunCmd isdir (self, w) = (r, (self', w')) ->
  _path self' = _path self
  /\ url self' = url self
  /\ (exists_ self = true -> exists_ self' = true)
  /\ Forall (in_directory (_path self)) (issued w w').
Proof.
  intros Hrun.
  destruct (steps_update_from_git RunCmd isdir (_path self) (url self)
              (exists_ self) (self, w) r (self', w'))
    as ((Hp & Hu & He) & added & Hc & F); [|exact Hrun|].
  - repeat split; auto.
  - unfold handle_calls in Hc. simpl in *.
    rewrite (issued_app _ _ _ Hc). auto.
Qed.

(** X9: whether [Repo(path)] returns or raises, every call of the
    runner that it has made ran in [path], with an output stream. *)
Theorem construct_calls_in_directory path (w : World Env) r w' :
  Repo_new RunCmd isdir path w = (r, w') ->
  Forall (in_directory path) (issued w w').
Proof.
  unfold Repo_new, Repo_defaults. rewrite ObjectDict_init_ok.
  fold (default_repo path).
  destruct (_update_from_git RunCmd isdir (default_repo path, w))
    as [r0 [self' w1]] eqn:E.
  destruct (steps_update_from_git RunCmd isdir path None false
              (default_repo path, w) r0 (self', w1))
    as (_ & added & Hc & F); [|exact E|].
  - repeat split; try reflexivity. discriminate.
  - unfold handle_calls in Hc. simpl in Hc.
    destruct r0 as [[]|e]; intros [= <- <-];
      rewrite (issued_app _ _ _ Hc); exact F.
Qed.

End RefreshClaims.

(** ** The queries of a derivation that returns *)

Section Inv.
Context {Env : Type}.
Variable RunCmd : RunArgs -> Env -> RunResult * Env.
Variable isdir : Env -> string -> bool.

Lemma captured_ok_inv cmd path (w w' : World Env) code o :
  RunCmd_captured RunCmd cmd path w = (Ok (code, o), w') ->
  exists e',
    RunCmd (query cmd path) (env w) = (Returned code o, e')
    /\ w' = after_call w (query cmd path) (Returned code o) e'.
Proof.
  intros H. destruct (captured_trace _ _ _ _ _ _ H) as ([c' o'|e] & e' & -> & Hr & Hres).
  - injection Hres as -> ->. eauto.
  - discriminate Hres.
Qed.

Lemma get_branch_ok self (w w' : World Env) b :
  _get_branch RunCmd self w = (Ok b, w') ->
  exists code o e',
    RunCmd (query cmd_branch (_path self)) (env w) = (Returned code o, e')
    /\ b = PyStr.strip o
    /\ w' = after_call w (query cmd_branch (_path self)) (Returned code o) e'.
Proof.
  unfold _get_branch, bind, ret.
  destruct (RunCmd_captured _ _ _ _) as [[[code o]|e] w1] eqn:E; [|discriminate].
  intros [= <- <-]. destruct (captured_ok_inv _ _ _ _ _ _ E) as (e' & H1 & H2).
  exists code, o, e'. auto.
Qed.

Lemma get_head_ok self (w w' : World Env) h :
  _get_head RunCmd self w = (Ok h, w') ->
  exists code o e',
    RunCmd (query cmd_head (_path self)) (env w) = (Returned code o, e')
    /\ h = head_record (PyStr.strip o)
    /\ w' = after_call w (query cmd_head (_path self)) (Returned code o) e'.
Proof.
  unfold _get_head, bind.
  destruct (RunCmd_captured _ _ _ _) as [[[code o]|e] w1] eqn:E; [|discriminate].
  rewrite ObjectDict_init_ok. unfold lift_result.
  rewrite set_fresh by reflexivity.
  intros [= <- <-]. destruct (captured_ok_inv _ _ _ _ _ _ E) as (e' & H1 & H2).
  exists code, o, e'. auto.
Qed.

Lemma get_bare_ok self (w w' : World Env) b :
  _get_bare RunCmd self w = (Ok b, w') ->
  exists code o e',
    RunCmd (query cmd_bare (_path self)) (env w) = (Returned code o, e')
    /\ b = String.eqb (PyStr.lower (PyStr.strip o)) "true"
    /\ w' = after_call w (query cmd_bare (_path self)) (Returned code o) e'.
Proof.
  unfold _get_bare, bind, ret.
  destruct (RunCmd_captured _ _ _ _) as [[[code o]|e] w1] eqn:E; [|discriminate].
  simpl. destruct (captured_ok_inv _ _ _ _ _ _ E) as (e' & H1 & H2).
  destruct (String.eqb _ _) eqn:Eb; intros [= <- <-];
    exists code, o, e'; auto.
Qed.

Lemma get_dirty_ok self (w w' : World Env) d :
  _get_dirty RunCmd self w = (Ok d, w') ->
  exists c1 o1 e1,
    RunCmd (query cmd_status (_path self)) (env w) = (Returned c1 o1, e1)
    /\ ((PyStr.strip o1 <> "" /\ d = true
         /\ w' = after_call w (query cmd_status (_path self))
                   (Returned c1 o1) e1)
        \/ (PyStr.strip o1 = "" /\ exists c2 o2 e2,
              RunCmd (query cmd_unpushed (_path self)) e1
              = (Returned c2 o2, e2)
              /\ d = PyStr.nonempty (PyStr.strip o2)
              /\ w' = after_call
                        (after_call w (query cmd_status (_path self))
                           (Returned c1 o1) e1)
                        (query cmd_unpushed (_path self))
                        (Returned c2 o2) e2)).
Proof.
  intros Hrun.
  destruct (RunCmd (query cmd_status (_path self)) (env w))
    as [[c1 o1|e1] e1'] eqn:H1.
  - exists c1, o1, e1'. split; [reflexivity|].
    destruct (PyStr.strip o1) as [|a s1] eqn:Hs.
    + right. split; [reflexivity|].
      destruct (RunCmd (query cmd_unpushed (_path self)) e1')
        as [[c2 o2|e2] e2'] eqn:H2.
      * rewrite (get_dirty_unpushed _ _ _ _ _ _ _ _ _ H1 Hs H2) in Hrun.
        injection Hrun as <- <-. exists c2, o2, e2'. auto.
      * unfold _get_dirty, bind in Hrun.
        rewrite (captured_returned _ _ _ _ _ _ _ H1) in Hrun.
        simpl in Hrun. rewrite Hs in Hrun. simpl in Hrun.
        rewrite (captured_raised _ _ _ (after_call w _ _ e1') e2 e2' H2)
          in Hrun.
        discriminate Hrun.
    + left. assert (Hne : PyStr.strip o1 <> "") by (rewrite Hs; discriminate).
      rewrite (get_dirty_status _ _ _ _ _ _ H1 Hne) in Hrun.
      injection Hrun as <- <-. rewrite <- Hs. auto.
  - unfold _get_dirty, bind in Hrun.
    rewrite (captured_raised _ _ _ _ _ _ H1) in Hrun. discriminate Hrun.
Qed.

(** Methods read [self] through its path only. *)
Lemma get_branch_path s1 s2 (w : World Env) :
  _path s1 = _path s2 -> _get_branch RunCmd s1 w = _get_branch RunCmd s2 w.
Proof. unfold _get_branch. intros ->. reflexivity. Qed.

Lemma get_head_path s1 s2 (w : World Env) :
  _path s1 = _path s2 -> _get_head RunCmd s1 w = _get_head RunCmd s2 w.
Proof. unfold _get_head. intros ->. reflexivity. Qed.

Lemma get_bare_path s1 s2 (w : World Env) :
  _path s1 = _path s2 -> _get_bare RunCmd s1 w = _get_bare RunCmd s2 w.
Proof. unfold _get_bare. intros ->. reflexivity. Qed.

Lemma get_dirty_path s1 s2 (w : World Env) :
  _path s1 = _path s2 -> _get_dirty RunCmd s1 w = _get_dirty RunCmd s2 w.
Proof. unfold _get_dirty. intros ->. reflexivity. Qed.

Lemma get_remotes_loop_path s1 s2 names : forall nr (w : World Env),
  _path s1 = _path s2 ->
  _get_remotes_loop RunCmd s1 nr names w
  = _get_remotes_loop RunCmd s2 nr names w.
Proof.
  induction names as [|n rest IH]; intros nr w Hp; [reflexivity|].
  simpl. unfold bind.
  assert (E : _get_remotes_step RunCmd s1 nr n w
              = _get_remotes_step RunCmd s2 nr n w)
    by (unfold _get_remotes_step, _get_url; rewrite Hp; reflexivity).
  rewrite E. destruct (_get_remotes_step RunCmd s2 nr n w) as [[a|e] w1];
    [apply IH, Hp | reflexivity].
Qed.

Lemma get_remotes_path s1 s2 (w : World Env) :
  _path s1 = _path s2 -> _get_remotes RunCmd s1 w = _get_remotes RunCmd s2 w.
Proof.
  intros Hp. unfold _get_remotes, bind. rewrite Hp.
  destruct (lift_result ObjectDict.__init__ w) as [[a|e] w0]; [|reflexivity].
  destruct (RunCmd_captured _ _ _ _) as [[a0|e] w1]; [|reflexivity].
  apply get_remotes_loop_path, Hp.
Qed.

(** A derivation that returns: the five queries have returned, one after
    the other, and every field but [_path] and [url] is assigned. *)
Lemma derivation_ok self (w : World Env) self' w' :
  derivation RunCmd isdir (self, w) = (Ok tt, (self', w')) <->
  exists b w1 r w2 h w3 d w4 bb,
    _get_branch RunCmd self w = (Ok b, w1)
    /\ _get_remotes RunCmd self w1 = (Ok r, w2)
    /\ _get_head RunCmd self w2 = (Ok h, w3)
    /\ _get_dirty RunCmd self w3 = (Ok d, w4)
    /\ _get_bare RunCmd self w4 = (Ok bb, w')
    /\ self' = mkRepo (_path self) (Some b) bb true r
                 (isdir (env w') (path_join_git (_path self)))
                 (url self) d (Some h).
Proof.
  unfold derivation, call, assign. unfold_monad. unfold zoom. simpl.
  rewrite (get_branch_path (set_exists true self) self) by reflexivity.
  destruct (_get_branch RunCmd self w) as [[b|e] w1] eqn:Hb; simpl.
  2:{ split; [discriminate|]. intros (b & ? & ? & ? & ? & ? & ? & ? & ? & H & _).
      discriminate H. }
  rewrite (get_remotes_path _ self) by reflexivity.
  destruct (_get_remotes RunCmd self w1) as [[r|e] w2] eqn:Hr; simpl.
  2:{ split; [discriminate|].
      intros (? & ? & ? & ? & ? & ? & ? & ? & ? & [= <- <-] & H & _).
      rewrite Hr in H. discriminate H. }
  rewrite (get_head_path _ self) by reflexivity.
  destruct (_get_head RunCmd self w2) as [[h|e] w3] eqn:Hh; simpl.
  2:{ split; [discriminate|].
      intros (? & ? & ? & ? & ? & ? & ? & ? & ? & [= <- <-] & H1 & H & _).
      rewrite Hr in H1. injection H1 as <- <-.
      rewrite Hh in H. discriminate H. }
  rewrite (get_dirty_path _ self) by reflexivity.
  destruct (_get_dirty RunCmd self w3) as [[d|e] w4] eqn:Hd; simpl.
  2:{ split; [discriminate|].
      intros (? & ? & ? & ? & ? & ? & ? & ? & ? & [= <- <-] & H1 & H2 & H & _).
      rewrite Hr in H1. injection H1 as <- <-.
      rewrite Hh in H2. injection H2 as <- <-.
      rewrite Hd in H. discriminate H. }
  rewrite (get_bare_path _ self) by reflexivity.
  destruct (_get_bare RunCmd self w4) as [[bb|e] w5] eqn:Hbb; simpl.
  2:{ split; [discriminate|].
      intros (? & ? & ? & ? & ? & ? & ? & ? & ? & [= <- <-] & H1 & H2 & H3 & H & _).
      rewrite Hr in H1. injection H1 as <- <-.
      rewrite Hh in H2. injection H2 as <- <-.
      rewrite Hd in H3. injection H3 as <- <-.
      rewrite Hbb in H. discriminate H. }
  split.
  - intros [= <- <-]. exists b, w1, r, w2, h, w3, d, w4, bb.
    repeat split; assumption || reflexivity.
  - intros (? & ? & ? & ? & ? & ? & ? & ? & ? & [= <- <-] & H1 & H2 & H3 & H4 & ->).
    rewrite Hr in H1. injection H1 as <- <-.
    rewrite Hh in H2. injection H2 as <- <-.
    rewrite Hd in H3. injection H3 as <- <-.
    rewrite Hbb in H4. injection H4 as <- <-.
    reflexivity.
Qed.

End Inv.

(** ** Remote enumeration *)

Lemma entries_insert_public (m : gmap string PyVal) k v :
  public k ->
  ObjectDict.entries (<[k := v]> m) = <[k := v]> (ObjectDict.entries m).
Proof.
  intros Hk. unfold ObjectDict.entries.
  apply (map_filter_insert_True
           (fun kv : string * PyVal => PyStr.startswith_underscore kv.1 = false)).
  exact Hk.
Qed.

Lemma entries_insert_private (m : gmap string PyVal) k v :
  PyStr.startswith_underscore k = true ->
  ObjectDict.entries (<[k := v]> m) = ObjectDict.entries m.
Proof.
  intros Hk. unfold ObjectDict.entries.
  apply (map_filter_insert_not
           (fun kv : string * PyVal => PyStr.startswith_underscore kv.1 = false)).
  intros y. simpl. rewrite Hk. discriminate.
Qed.

Lemma entries_lookup (m : gmap string PyVal) k v :
  ObjectDict.entries m !! k = Some v -> m !! k = Some v.
Proof.
  unfold ObjectDict.entries. intros H.
  apply map_lookup_filter_Some in H. tauto.
Qed.

Lemma store_urls_notin names : forall urls (m : gmap string PyVal) n,
  n ∉ names -> store_urls m (zip names urls) !! n = m !! n.
Proof.
  induction names as [|n0 rest IH]; intros urls m n Hn; [reflexivity|].
  destruct urls as [|u0 us]; [reflexivity|].
  apply not_elem_of_cons in Hn as [Hne Hn].
  unfold store_urls in *. simpl. rewrite IH by exact Hn.
  apply lookup_insert_ne. congruence.
Qed.

Lemma store_urls_lookup names : forall urls (m : gmap string PyVal) i n u,
  NoDup names -> names !! i = Some n -> urls !! i = Some u ->
  store_urls m (zip names urls) !! n = Some (url_record u).
Proof.
  induction names as [|n0 rest IH]; intros urls m i n u Hnd Hn Hu;
    [discriminate Hn|].
  destruct urls as [|u0 us]; [discriminate Hu|].
  apply NoDup_cons in Hnd as [Hnotin Hnd].
  destruct i as [|i]; simpl in Hn, Hu.
  - injection Hn as <-. injection Hu as <-.
    change (store_urls (<[n0 := url_record u0]> m) (zip rest us) !! n0
            = Some (url_record u0)).
    rewrite store_urls_notin by exact Hnotin. apply lookup_insert_eq.
  - change (store_urls (<[n0 := url_record u0]> m) (zip rest us) !! n
            = Some (url_record u)).
    eapply IH; eauto.
Qed.

Lemma cmds_of_app t1 t2 : cmds_of (t1 ++ t2) = (cmds_of t1 ++ cmds_of t2)%list.
Proof. apply fmap_app. Qed.

Section Loop.
Context {Env : Type}.
Variable RunCmd : RunArgs -> Env -> RunResult * Env.
Variable isdir : Env -> string -> bool.

(** One round of the loop of [_get_remotes] whose lookup returns, for a
    public name. *)
Lemma remotes_step_public self nr l n (w : World Env) code o e' :
  public n ->
  nr !! ObjectDict.values_attr = Some (VList l) ->
  RunCmd (query (cmd_url n) (_path self)) (env w) = (Returned code o, e') ->
  _get_remotes_step RunCmd self nr n w
  = (Ok (<[n := url_record (PyStr.strip o)]>
           (<[ObjectDict.values_attr := VList (l ++ [n])]> nr)),
     after_call w (query (cmd_url n) (_path self)) (Returned code o) e').
Proof.
  intros Hn Hl Hrun. unfold _get_remotes_step, bind.
  rewrite ObjectDict_init_ok. simpl.
  rewrite (get_url_returned _ _ _ _ _ _ _ Hrun).
  rewrite set_fresh by reflexivity. unfold lift_result.
  rewrite (setattr_public _ n _ l Hn Hl). reflexivity.
Qed.

Lemma remotes_loop_public self names : forall nr l (w : World Env) urls e1,
  Forall public names ->
  nr !! ObjectDict.values_attr = Some (VList l) ->
  lookups RunCmd (_path self) names (env w) = Some (urls, e1) ->
  exists bag w' added,
    _get_remotes_loop RunCmd self nr names w = (Ok bag, w')
    /\ env w' = e1
    /\ logs w' = logs w
    /\ calls w' = (calls w ++ added)%list
    /\ cmds_of added = cmd_url <$> names
    /\ bag !! ObjectDict.values_attr = Some (VList (l ++ names))
    /\ ObjectDict.entries bag
       = store_urls (ObjectDict.entries nr) (zip names urls)
    /\ List.length urls = List.length names.
Proof.
  induction names as [|n rest IH]; intros nr l w urls e1 Hpub Hl Hlook.
  - injection Hlook as <- <-. exists nr, w, []. simpl.
    rewrite !app_nil_r. repeat split; auto.
  - apply Forall_cons in Hpub as [Hn Hpub]. simpl in Hlook.
    destruct (RunCmd (query (cmd_url n) (_path self)) (env w))
      as [[code o|e] e'] eqn:Hrun; [|discriminate Hlook].
    destruct (lookups RunCmd (_path self) rest e') as [[us e'']|] eqn:Hrest;
      [|discriminate Hlook].
    injection Hlook as <- <-.
    destruct (IH (<[n := url_record (PyStr.strip o)]>
                    (<[ObjectDict.values_attr := VList (l ++ [n])]> nr))
                (l ++ [n])%list
                (after_call w (query (cmd_url n) (_path self))
                   (Returned code o) e')
                us e'' Hpub)
      as (bag & w' & added & Hloop & He & Hlogs & Hcalls & Hcmds & Hvals
          & Hent & Hlen).
    { rewrite lookup_insert_ne by (apply public_not_values, Hn).
      apply lookup_insert_eq. }
    { exact Hrest. }
    exists bag, w', (mkCall (query (cmd_url n) (_path self))
                       (Returned code o) :: added).
    simpl. unfold bind.
    rewrite (remotes_step_public _ _ _ _ _ _ _ _ Hn Hl Hrun).
    split; [exact Hloop|]. split; [exact He|]. split; [exact Hlogs|].
    split; [rewrite Hcalls; simpl; rewrite <- app_assoc; reflexivity|].
    split; [unfold cmds_of in *; simpl; rewrite Hcmds; reflexivity|].
    split; [rewrite Hvals, <- app_assoc; reflexivity|].
    split; [|simpl; rewrite Hlen; reflexivity].
    rewrite Hent, entries_insert_public by exact Hn.
    rewrite entries_insert_private by reflexivity. reflexivity.
Qed.

(** The lookups made by a loop that returns. *)
Lemma remotes_loop_ok self names : forall nr (w w' : World Env) bag,
  _get_remotes_loop RunCmd self nr names w = (Ok bag, w') ->
  exists added,
    calls w' = (calls w ++ added)%list
    /\ cmds_of added = cmd_url <$> names
    /\ logs w' = logs w.
Proof.
  induction names as [|n rest IH]; intros nr w w' bag Hloop.
  - injection Hloop as <- <-. exists []. rewrite app_nil_r. auto.
  - simpl in Hloop. unfold bind at 1 in Hloop.
    destruct (_get_remotes_step RunCmd self nr n w) as [[nr'|e] w1] eqn:Hstep;
      [|discriminate Hloop].
    destruct (IH _ _ _ _ Hloop) as (added & Hc & Hcmds & Hlogs).
    unfold _get_remotes_step, bind, lift_result in Hstep.
    destruct ObjectDict.__init__ as [url0|e]; [|discriminate Hstep].
    destruct (_get_url RunCmd self n w) as [[u|e] w0] eqn:Hurl;
      [|discriminate Hstep].
    unfold _get_url, bind, ret in Hurl.
    destruct (RunCmd_captured _ _ _ _) as [[[code o]|e] wc] eqn:Hcap;
      [|discriminate Hurl].
    injection Hurl as <- <-.
    destruct (captured_ok_inv _ _ _ _ _ _ _ Hcap) as (e' & _ & ->).
    destruct (ObjectDict.set url0 _ _) as [url1|e]; [|discriminate Hstep].
    destruct (ObjectDict.__setattr__ nr n _) as [x|e]; [|discriminate Hstep].
    injection Hstep as <- <-.
    exists (mkCall (query (cmd_url n) (_path self)) (Returned code o)
              :: added).
    rewrite Hc, Hlogs. simpl. rewrite <- app_assoc.
    unfold cmds_of in *. simpl. rewrite Hcmds. auto.
Qed.

Lemma get_remotes_ok self (w w' : World Env) bag :
  _get_remotes RunCmd self w = (Ok bag, w') ->
  exists code o e0 added,
    RunCmd (query cmd_remote (_path self)) (env w) = (Returned code o, e0)
    /\ calls w'
       = (calls w ++ mkCall (query cmd_remote (_path self)) (Returned code o)
                       :: added)%list
    /\ cmds_of added
       = cmd_url <$> PyStr.split PyStr.newline (PyStr.strip o)
    /\ logs w' = logs w.
Proof.
  unfold _get_remotes, bind. rewrite ObjectDict_init_ok. simpl.
  destruct (RunCmd_captured _ _ _ _) as [[[code o]|e] wc] eqn:Hcap;
    [|discriminate].
  destruct (captured_ok_inv _ _ _ _ _ _ _ Hcap) as (e' & Hrun & ->).
  simpl. intros Hloop.
  destruct (remotes_loop_ok _ _ _ _ _ _ Hloop) as (added & Hc & Hcmds & Hlogs).
  exists code, o, e', added. simpl in Hc. rewrite <- app_assoc in Hc.
  auto.
Qed.

End Loop.

Section More.
Context {Env : Type}.
Variable RunCmd : RunArgs -> Env -> RunResult * Env.
Variable isdir : Env -> string -> bool.

(** X5: remote enumeration in general.  When [git remote] returns, the
    names on the lines of its trimmed output are all public and every
    URL lookup returns, [_get_remotes] returns a bag that declares those
    names in that order (joined by newlines they give the trimmed output
    back), whose entries are the URL records stored first to last, after
    one [git remote] call and one lookup per name; when no name is
    repeated, each name holds the URL of its own lookup. *)
Theorem get_remotes_public self (w : World Env) code o e0 urls e1 :
  RunCmd (query cmd_remote (_path self)) (env w) = (Returned code o, e0) ->
  Forall public (PyStr.split PyStr.newline (PyStr.strip o)) ->
  lookups RunCmd (_path self) (PyStr.split PyStr.newline (PyStr.strip o)) e0
  = Some (urls, e1) ->
  exists bag w',
    _get_remotes RunCmd self w = (Ok bag, w')
    /\ env w' = e1
    /\ ObjectDict.declared bag = PyStr.split PyStr.newline (PyStr.strip o)
    /\ PyStr.join (String PyStr.newline "") (ObjectDict.declared bag)
       = PyStr.strip o
    /\ ObjectDict.entries bag
       = store_urls ∅ (zip (PyStr.split PyStr.newline (PyStr.strip o)) urls)
    /\ cmds_of (issued w w')
       = cmd_remote
           :: (cmd_url <$> PyStr.split PyStr.newline (PyStr.strip o))
    /\ (NoDup (PyStr.split PyStr.newline (PyStr.strip o)) ->
        forall i n u,
          PyStr.split PyStr.newline (PyStr.strip o) !! i = Some n ->
          urls !! i = Some u ->
          nested_attr bag n "url" = Some (VStr u)).
Proof.
  intros Hrun Hpub Hlook.
  destruct (remotes_loop_public RunCmd self _
              {[ ObjectDict.values_attr := VList [] ]} []
              (after_call w (query cmd_remote (_path self))
                 (Returned code o) e0)
              urls e1 Hpub)
    as (bag & w' & added & Hloop & He & Hlogs & Hcalls & Hcmds & Hvals
        & Hent & Hlen); [reflexivity | exact Hlook |].
  exists bag, w'.
  assert (Hdecl : ObjectDict.declared bag
                  = PyStr.split PyStr.newline (PyStr.strip o))
    by (unfold ObjectDict.declared; rewrite Hvals; reflexivity).
  assert (Hent' : ObjectDict.entries bag
                  = store_urls ∅
                      (zip (PyStr.split PyStr.newline (PyStr.strip o)) urls)).
  { rewrite Hent. f_equal. }
  split.
  { unfold _get_remotes, bind. rewrite ObjectDict_init_ok. simpl.
    rewrite (captured_returned _ _ _ _ _ _ _ Hrun). exact Hloop. }
  split; [exact He|]. split; [exact Hdecl|].
  split; [rewrite Hdecl; apply join_split|].
  split; [exact Hent'|]. split.
  - simpl in Hcalls. rewrite <- app_assoc in Hcalls.
    rewrite (issued_app _ _ _ Hcalls), cmds_of_app, Hcmds. reflexivity.
  - intros Hnd i n u Hn Hu. unfold nested_attr.
    rewrite (entries_lookup bag n (url_record u)); [reflexivity|].
    rewrite Hent'. eapply store_urls_lookup; eauto.
Qed.

Lemma remotes_step_raises self nr n (w : World Env) e e' :
  RunCmd (query (cmd_url n) (_path self)) (env w) = (Raised e, e') ->
  _get_remotes_step RunCmd self nr n w
  = (Raise e, after_call w (query (cmd_url n) (_path self)) (Raised e) e').
Proof.
  intros Hrun. unfold _get_remotes_step, bind.
  rewrite ObjectDict_init_ok. simpl.
  assert (E : _get_url RunCmd self n w
              = (Raise e,
                 after_call w (query (cmd_url n) (_path self)) (Raised e) e'))
    by (unfold _get_url, bind; rewrite (captured_raised _ _ _ _ _ _ Hrun);
        reflexivity).
  rewrite E. reflexivity.
Qed.

Lemma remotes_loop_raises self n post e pre :
  forall nr l (w : World Env) urls e1 e2,
  Forall public pre ->
  nr !! ObjectDict.values_attr = Some (VList l) ->
  lookups RunCmd (_path self) pre (env w) = Some (urls, e1) ->
  RunCmd (query (cmd_url n) (_path self)) e1 = (Raised e, e2) ->
  exists w' added,
    _get_remotes_loop RunCmd self nr (pre ++ n :: post) w = (Raise e, w')
    /\ env w' = e2
    /\ logs w' = logs w
    /\ calls w' = (calls w ++ added)%list
    /\ cmds_of added = cmd_url <$> (pre ++ [n])%list.
Proof.
  induction pre as [|p rest IH]; intros nr l w urls e1 e2 Hpub Hl Hlook Hfail.
  - injection Hlook as <- <-. simpl. unfold bind.
    rewrite (remotes_step_raises _ _ _ _ _ _ Hfail).
    eexists _, [_]. repeat split; reflexivity.
  - apply Forall_cons in Hpub as [Hp Hpub]. simpl in Hlook.
    destruct (RunCmd (query (cmd_url p) (_path self)) (env w))
      as [[code o|e0] e'] eqn:Hrun; [|discriminate Hlook].
    destruct (lookups RunCmd (_path self) rest e') as [[us e'']|] eqn:Hrest;
      [|discriminate Hlook].
    injection Hlook as <- <-.
    destruct (IH (<[p := url_record (PyStr.strip o)]>
                    (<[ObjectDict.values_attr := VList (l ++ [p])]> nr))
                (l ++ [p])%list
                (after_call w (query (cmd_url p) (_path self))
                   (Returned code o) e')
                us e'' e2 Hpub)
      as (w' & added & Hloop & He & Hlogs & Hcalls & Hcmds).
    { rewrite lookup_insert_ne by (apply public_not_values, Hp).
      apply lookup_insert_eq. }
    { exact Hrest. }
    { exact Hfail. }
    exists w', (mkCall (query (cmd_url p) (_path self))
                  (Returned code o) :: added).
    simpl. unfold bind.
    rewrite (remotes_step_public _ _ _ _ _ _ _ _ _ Hp Hl Hrun).
    split; [exact Hloop|]. split; [exact He|]. split; [exact Hlogs|].
    split; [rewrite Hcalls; simpl; rewrite <- app_assoc; reflexivity|].
    unfold cmds_of in *. simpl. rewrite Hcmds. reflexivity.
Qed.

(** X6: when the URL lookup of a remote raises, [_get_remotes] raises
    that exception: the names after it are not looked up, nothing is
    logged and no bag is returned. *)
Theorem get_remotes_lookup_raises self (w : World Env) code o e0
    pre n post urls e1 e e2 :
  RunCmd (query cmd_remote (_path self)) (env w) = (Returned code o, e0) ->
  PyStr.split PyStr.newline (PyStr.strip o) = (pre ++ n :: post)%list ->
  Forall public pre ->
  lookups RunCmd (_path self) pre e0 = Some (urls, e1) ->
  RunCmd (query (cmd_url n) (_path self)) e1 = (Raised e, e2) ->
  exists w',
    _get_remotes RunCmd self w = (Raise e, w')
    /\ env w' = e2
    /\ logs w' = logs w
    /\ cmds_of (issued w w')
       = cmd_remote :: (cmd_url <$> (pre ++ [n])%list).
Proof.
  intros Hrun Hsplit Hpub Hlook Hfail.
  destruct (remotes_loop_raises self n post e pre
              {[ ObjectDict.values_attr := VList [] ]} []
              (after_call w (query cmd_remote (_path self))
                 (Returned code o) e0)
              urls e1 e2 Hpub)
    as (w' & added & Hloop & He & Hlogs & Hcalls & Hcmds);
    [reflexivity | exact Hlook | exact Hfail |].
  exists w'. split.
  { unfold _get_remotes, bind. rewrite ObjectDict_init_ok. simpl.
    rewrite (captured_returned _ _ _ _ _ _ _ Hrun). simpl.
    rewrite Hsplit. exact Hloop. }
  split; [exact He|]. split; [exact Hlogs|].
  simpl in Hcalls. rewrite <- app_assoc in Hcalls.
  rewrite (issued_app _ _ _ Hcalls), cmds_of_app, Hcmds. reflexivity.
Qed.

End More.

(** ** Construction and refresh *)

Lemma trimmed_outputs_none cmd tr :
  Forall (fun c => String.eqb c cmd = false) (cmds_of tr) ->
  trimmed_outputs cmd tr = [].
Proof.
  induction tr as [|c tr IH]; intros F; [reflexivity|].
  unfold cmds_of in F. rewrite fmap_cons in F.
  apply Forall_cons in F as [Hc F].
  unfold trimmed_outputs in *. simpl. rewrite Hc. apply IH, F.
Qed.

Lemma cmd_url_other names cmd :
  (forall n, String.eqb (cmd_url n) cmd = false) ->
  Forall (fun c => String.eqb c cmd = false) (cmd_url <$> names).
Proof. intros H. apply Forall_fmap, Forall_forall. intros n _. apply H. Qed.

Section Anatomy.
Context {Env : Type}.
Variable RunCmd : RunArgs -> Env -> RunResult * Env.
Variable isdir : Env -> string -> bool.

Lemma construct_ok_anatomy path (w w' : World Env) self :
  isdir (env w) path = true ->
  Repo_new RunCmd isdir path w = (Ok self, w') ->
  exists cb ob cr or added ch oh dc cx ox,
    issued w w'
    = ([mkCall (query cmd_branch path) (Returned cb ob);
        mkCall (query cmd_remote path) (Returned cr or)]
         ++ added
         ++ [mkCall (query cmd_head path) (Returned ch oh)]
         ++ dc
         ++ [mkCall (query cmd_bare path) (Returned cx ox)])%list
    /\ cmds_of added = cmd_url <$> PyStr.split PyStr.newline (PyStr.strip or)
    /\ dirty_calls path (dirty self) dc
    /\ logs w' = logs w
    /\ self = mkRepo path (Some (PyStr.strip ob))
                (String.eqb (PyStr.lower (PyStr.strip ox)) "true") true
                (remotes self)
                (isdir (env w') (path_join_git path)) None (dirty self)
                (Some (head_record (PyStr.strip oh))).
Proof.
  intros Hdir Hnew. rewrite (Repo_new_isdir _ _ _ _ Hdir) in Hnew.
  destruct (derivation _ _ _) as [[[]|e] [self' w1]] eqn:Hder;
    [|discriminate Hnew].
  injection Hnew as -> ->.
  apply derivation_ok in Hder
    as (b & w1 & r & w2 & h & w3 & d & w4 & bb & Hb & Hr & Hh & Hd & Hbb & ->).
  simpl in *.
  apply get_branch_ok in Hb as (cb & ob & eb & _ & -> & ->).
  apply get_remotes_ok in Hr as (cr & or & er & added & _ & Hc2 & Hcmds & Hl2).
  apply get_head_ok in Hh as (ch & oh & eh & _ & -> & ->).
  apply get_bare_ok in Hbb as (cx & ox & ex & _ & -> & ->).
  apply get_dirty_ok in Hd as (c1 & o1 & e1 & _ & Hcase).
  simpl in *.
  destruct Hcase as [(Hne & -> & ->) | (He & c2 & o2 & e2 & _ & -> & ->)].
  - exists cb, ob, cr, or, added, ch, oh,
      [mkCall (query cmd_status path) (Returned c1 o1)], cx, ox.
    split.
    { apply issued_app. simpl. rewrite Hc2. simpl.
      rewrite <- !app_assoc. reflexivity. }
    split; [exact Hcmds|]. split; [constructor; auto|].
    split; [simpl; exact Hl2|]. reflexivity.
  - exists cb, ob, cr, or, added, ch, oh,
      [mkCall (query cmd_status path) (Returned c1 o1);
       mkCall (query cmd_unpushed path) (Returned c2 o2)], cx, ox.
    split.
    { apply issued_app. simpl. rewrite Hc2. simpl.
      rewrite <- !app_assoc. reflexivity. }
    split; [exact Hcmds|]. split; [constructor; auto|].
    split; [simpl; exact Hl2|]. reflexivity.
Qed.

End Anatomy.


Section Construct.
Context {Env : Type}.
Variable RunCmd : RunArgs -> Env -> RunResult * Env.
Variable isdir : Env -> string -> bool.

(** X7: the handle that [Repo(path)] returns for a directory: [_path]
    is the path, [exists] is true, [url] is still None, [initalized] is
    the directory test on the [.git] entry made after the last query,
    nothing is logged, and [active_branch], [head.commit] and [bare] are
    computed from the trimmed outputs of their own queries. *)
Theorem construct_directory_fields path (w w' : World Env) self :
  isdir (env w) path = true ->
  Repo_new RunCmd isdir path w = (Ok self, w') ->
  _path self = path
  /\ exists_ self = true
  /\ url self = None
  /\ initalized self = isdir (env w') (path_join_git path)
  /\ logs w' = logs w
  /\ exists b c x,
       trimmed_outputs cmd_branch (issued w w') = [b]
       /\ active_branch self = Some b
       /\ trimmed_outputs cmd_head (issued w w') = [c]
       /\ head self = Some (head_record c)
       /\ trimmed_outputs cmd_bare (issued w w') = [x]
       /\ bare self = caseless_eqb x "true".
Proof.
  intros Hdir Hnew.
  destruct (construct_ok_anatomy _ _ _ _ _ _ Hdir Hnew)
    as (cb & ob & cr & or & added & ch & oh & dc & cx & ox
        & Hiss & Hcmds & Hdc & Hlogs & Hself).
  rewrite Hself. simpl. repeat (split; [reflexivity || assumption|]).
  exists (PyStr.strip ob), (PyStr.strip oh), (PyStr.strip ox).
  rewrite Hiss, !trimmed_outputs_app.
  rewrite !(trimmed_outputs_none _ added)
    by (rewrite Hcmds; apply cmd_url_other; reflexivity).
  assert (Hd : trimmed_outputs cmd_branch dc = []
               /\ trimmed_outputs cmd_head dc = []
               /\ trimmed_outputs cmd_bare dc = [])
    by (destruct Hdc; repeat split; reflexivity).
  destruct Hd as (-> & -> & ->).
  rewrite lower_true_caseless.
  repeat split; reflexivity.
Qed.


Lemma update_isdir self (w : World Env) :
  isdir (env w) (_path self) = true ->
  _update_from_git RunCmd isdir (self, w)
  = match derivation RunCmd isdir (self, w) with
    | (Ok a, st) => (Ok a, st)
    | (Raise e, (s1, w1)) =>
        (Raise e, (s1, after_git_error w1 (_path self) e))
    end.
Proof.
  intros Hdir. unfold _update_from_git, call, os_path_isdir.
  unfold_monad. unfold zoom. simpl. rewrite Hdir.
  destruct (derivation _ _ _) as [[a|e] [s1 w1]] eqn:Hder; [reflexivity|].
  simpl. rewrite (derivation_path _ _ _ _ _ _ _ Hder). reflexivity.
Qed.

(** X11: a refresh that returns on a directory overwrites every field
    but [_path] and [url]: two objects with the same path and the same
    [url] are refreshed to the same object, whatever their other fields
    held. *)
Theorem refresh_reads_path_and_url s1 s2 (w w' : World Env) s' :
  _path s1 = _path s2 ->
  url s1 = url s2 ->
  isdir (env w) (_path s1) = true ->
  _update_from_git RunCmd isdir (s1, w) = (Ok tt, (s', w')) ->
  _update_from_git RunCmd isdir (s2, w) = (Ok tt, (s', w')).
Proof.
  intros Hp Hu Hdir Hrun.
  rewrite (update_isdir _ _ Hdir) in Hrun.
  rewrite update_isdir by (rewrite <- Hp; exact Hdir).
  destruct (derivation RunCmd isdir (s1, w)) as [[[]|e] [t1 w1]] eqn:Hder;
    [|discriminate Hrun].
  injection Hrun as -> ->.
  apply derivation_ok in Hder
    as (b & w1 & r & w2 & h & w3 & d & w4 & bb & Hb & Hr & Hh & Hd & Hbb & ->).
  assert (Hder2 : derivation RunCmd isdir (s2, w)
                  = (Ok tt,
                     (mkRepo (_path s1) (Some b) bb true r
                        (isdir (env w') (path_join_git (_path s1)))
                        (url s1) d (Some h), w'))).
  { apply derivation_ok. exists b, w1, r, w2, h, w3, d, w4, bb.
    rewrite <- (get_branch_path _ s1 s2), <- (get_remotes_path _ s1 s2),
      <- (get_head_path _ s1 s2), <- (get_dirty_path _ s1 s2),
      <- (get_bare_path _ s1 s2) by exact Hp.
    rewrite <- Hp, <- Hu. auto 10. }
  rewrite Hder2. reflexivity.
Qed.

End Construct.

(** ** Operations *)

Section Ops.
Context {Env : Type}.
Variable RunCmd : RunArgs -> Env -> RunResult * Env.
Variable isdir : Env -> string -> bool.

(** The block shared by [fetch], [pull] and [checkout]. *)
Lemma run_and_report lvl cmd path (w : World Env) code o e' :
  RunCmd (query cmd path) (env w) = (Returned code o, e') ->
  bind (RunCmd_captured RunCmd cmd path)
    (fun out =>
       if negb (out.1 =? 0)
       then bind (logging lvl (MsgText (PyStr.strip out.2)))
              (fun _ => ret false)
       else ret true) w
  = (Ok (code =? 0),
     mkWorld e' (calls w ++ [mkCall (query cmd path) (Returned code o)])
       (logs w ++ failure_log lvl code o)).
Proof.
  intros Hrun. unfold bind at 1.
  rewrite (captured_returned _ _ _ _ _ _ _ Hrun). simpl.
  unfold failure_log. destruct (code =? 0); simpl.
  - rewrite app_nil_r. reflexivity.
  - reflexivity.
Qed.

Lemma run_and_report_raised lvl cmd path (w : World Env) e e' :
  RunCmd (query cmd path) (env w) = (Raised e, e') ->
  bind (RunCmd_captured RunCmd cmd path)
    (fun out =>
       if negb (out.1 =? 0)
       then bind (logging lvl (MsgText (PyStr.strip out.2)))
              (fun _ => ret false)
       else ret true) w
  = (Raise e, after_call w (query cmd path) (Raised e) e').
Proof.
  intros Hrun. unfold bind at 1.
  rewrite (captured_raised _ _ _ _ _ _ Hrun). reflexivity.
Qed.

(** X12: [fetch] and [pull] run [git fetch] and [git pull] once in the
    directory of the handle; when the runner returns they return
    whether the exit code is 0, and for another code they log the
    trimmed output as an error. *)
Theorem fetch_pull_by_exit_code self (w : World Env) :
  (forall code o e',
      RunCmd (query "git fetch" (_path self)) (env w)
      = (Returned code o, e') ->
      fetch RunCmd self w
      = (Ok (code =? 0),
         mkWorld e'
           (calls w ++ [mkCall (query "git fetch" (_path self))
                          (Returned code o)])
           (logs w ++ failure_log ERROR code o)))
  /\ (forall code o e',
        RunCmd (query "git pull" (_path self)) (env w)
        = (Returned code o, e') ->
        pull RunCmd self w
        = (Ok (code =? 0),
           mkWorld e'
             (calls w ++ [mkCall (query "git pull" (_path self))
                            (Returned code o)])
             (logs w ++ failure_log ERROR code o))).
Proof.
  split; intros code o e' Hrun.
  - apply (run_and_report ERROR _ _ _ _ _ _ Hrun).
  - apply (run_and_report ERROR _ _ _ _ _ _ Hrun).
Qed.

(** X13: [checkout] checks out [branch] when it is given, whatever
    [commit] is, and [commit] otherwise; when the runner returns it
    returns whether the exit code is 0, and a failure is logged at debug
    level. *)
Theorem checkout_by_exit_code self branch commit ref (w : World Env)
    code o e' :
  (branch = Some ref \/ (branch = None /\ commit = Some ref)) ->
  RunCmd (query ("git checkout " ++ ref) (_path self)) (env w)
  = (Returned code o, e') ->
  checkout RunCmd self branch commit w
  = (Ok (code =? 0),
     mkWorld e'
       (calls w ++ [mkCall (query ("git checkout " ++ ref) (_path self))
                      (Returned code o)])
       (logs w ++ failure_log DEBUG code o)).
Proof.
  intros Href Hrun. unfold checkout.
  assert (E : checkout_cmd branch commit = Some ("git checkout " ++ ref))
    by (destruct Href as [-> | [-> ->]]; reflexivity).
  rewrite E. apply (run_and_report DEBUG _ _ _ _ _ _ Hrun).
Qed.

(** X14: [checkout] raises exactly when neither [branch] nor [commit]
    is given, or when the runner raises; with neither, it raises an
    [UnboundLocalError] before any call of the runner. *)
Theorem checkout_raises_iff self branch commit (w : World Env) :
  ((exists e w', checkout RunCmd self branch commit w = (Raise e, w')) <->
   (branch = None /\ commit = None)
   \/ exists cmd e e',
        checkout_cmd branch commit = Some cmd
        /\ RunCmd (query cmd (_path self)) (env w) = (Raised e, e'))
  /\ (branch = None -> commit = None ->
      checkout RunCmd self branch commit w
      = (Raise (UnboundLocalError "cmd"), w)).
Proof.
  split; [|intros -> ->; reflexivity].
  unfold checkout. destruct (checkout_cmd branch commit) as [cmd|] eqn:E.
  - destruct (RunCmd (query cmd (_path self)) (env w))
      as [[code o|e] e'] eqn:Hrun.
    + rewrite (run_and_report DEBUG _ _ _ _ _ _ Hrun). split.
      * intros (e & w' & H). discriminate H.
      * intros [[-> ->] | (cmd' & e & e2 & [= <-] & H)];
          [discriminate E | rewrite Hrun in H; discriminate H].
    + rewrite (run_and_report_raised DEBUG _ _ _ _ _ Hrun). split.
      * intros _. right. eauto.
      * intros _. eauto.
  - split.
    + intros _. left. destruct branch, commit; try discriminate E. auto.
    + intros _. exists (UnboundLocalError "cmd"), w. reflexivity.
Qed.

(** X15: [fetch], [pull] and [submodule] have no handler: an exception
    raised by the runner is raised to the caller, and no error record is
    logged. *)
Theorem operations_propagate self (w : World Env) e e' :
  (RunCmd (query "git fetch" (_path self)) (env w) = (Raised e, e') ->
   fetch RunCmd self w
   = (Raise e, after_call w (query "git fetch" (_path self)) (Raised e) e'))
  /\ (RunCmd (query "git pull" (_path self)) (env w) = (Raised e, e') ->
      pull RunCmd self w
      = (Raise e, after_call w (query "git pull" (_path self)) (Raised e) e'))
  /\ (forall command args,
        RunCmd (query (submodule_cmd command args) (_path self)) (env w)
        = (Raised e, e') ->
        submodule RunCmd self command args w
        = (Raise e,
           after_call (after_log w DEBUG (MsgSubmodule command args))
             (query (submodule_cmd command args) (_path self))
             (Raised e) e')).
Proof.
  split; [|split].
  - intros Hrun. apply (run_and_report_raised ERROR _ _ _ _ _ Hrun).
  - intros Hrun. apply (run_and_report_raised ERROR _ _ _ _ _ Hrun).
  - intros command args Hrun. unfold submodule, logging, modify.
    unfold bind at 1.
    apply (run_and_report_raised ERROR _ _
             (mkWorld (env w) (calls w)
                (logs w ++ [mkLog DEBUG (MsgSubmodule command args)]))
             _ _ Hrun).
Qed.

(** [clone_from] once the runner has returned. *)
Lemma clone_from_returned url to_path shallow (w : World Env) code o e' :
  RunCmd (clone_args url to_path shallow) (env w) = (Returned code o, e') ->
  clone_from RunCmd isdir url to_path shallow w
  = Repo_new RunCmd isdir to_path
      (after_call
         (after_log w DEBUG
            (MsgText ("Cloning " ++ url ++ " into " ++ to_path)))
         (clone_args url to_path shallow) (Returned code o) e').
Proof.
  intros Hrun.
  unfold clone_from, RunCmd_plain, run, logging, after_call, after_log.
  unfold clone_args in *. unfold_monad. simpl in *.
  rewrite Hrun. reflexivity.
Qed.

(** X16: [clone_from] does not look at the exit code of the clone:
    when the runner returns and the destination is not a directory
    afterwards, it returns a handle with every default, [exists]
    false, after that one call. *)
Theorem clone_from_ignores_exit_code url to_path shallow (w : World Env)
    code o e' :
  RunCmd (clone_args url to_path shallow) (env w) = (Returned code o, e') ->
  isdir e' to_path = false ->
  exists self w',
    clone_from RunCmd isdir url to_path shallow w = (Ok self, w')
    /\ self = default_repo to_path
    /\ exists_ self = false
    /\ env w' = e'
    /\ issued w w'
       = [mkCall (clone_args url to_path shallow) (Returned code o)]
    /\ logs w'
       = (logs w ++ [mkLog DEBUG
                       (MsgText ("Cloning " ++ url ++ " into " ++ to_path))])%list.
Proof.
  intros Hrun Hdir. eexists _, _. split.
  - rewrite (clone_from_returned _ _ _ _ _ _ _ Hrun).
    apply Repo_new_not_isdir. exact Hdir.
  - split; [reflexivity|]. split; [reflexivity|]. split; [reflexivity|].
    split; [apply issued_app; reflexivity | reflexivity].
Qed.

(** X17: when the runner raises on the clone command, [clone_from]
    raises that exception after that one call, and no handle is
    derived. *)
Theorem clone_from_runner_raises url to_path shallow (w : World Env) e e' :
  RunCmd (clone_args url to_path shallow) (env w) = (Raised e, e') ->
  clone_from RunCmd isdir url to_path shallow w
  = (Raise e,
     after_call
       (after_log w DEBUG
          (MsgText ("Cloning " ++ url ++ " into " ++ to_path)))
       (clone_args url to_path shallow) (Raised e) e').
Proof.
  intros Hrun.
  unfold clone_from, RunCmd_plain, run, logging, after_call, after_log.
  unfold clone_args in *. unfold_monad. simpl in *.
  rewrite Hrun. reflexivity.
Qed.

(** X18: when both queries return, the dirty derivation gives false
    exactly when the status output and the unpushed-commits output are
    made of white space only. *)
Theorem dirty_clean_iff_blank self (w : World Env) c1 o1 e1 c2 o2 e2 :
  RunCmd (query cmd_status (_path self)) (env w) = (Returned c1 o1, e1) ->
  RunCmd (query cmd_unpushed (_path self)) e1 = (Returned c2 o2, e2) ->
  exists d w',
    _get_dirty RunCmd self w = (Ok d, w')
    /\ (d = false <-> blank o1 = true /\ blank o2 = true).
Proof.
  clear isdir.
  intros H1 H2. destruct (PyStr.strip o1) as [|a s] eqn:Hs.
  - eexists _, _. split.
    + apply (get_dirty_unpushed _ _ _ _ _ _ _ _ _ H1 Hs H2).
    + rewrite nonempty_false, <- !strip_empty_iff. tauto.
  - assert (Hne : PyStr.strip o1 <> "") by (rewrite Hs; discriminate).
    eexists _, _. split.
    + apply (get_dirty_status _ _ _ _ _ _ H1 Hne).
    + rewrite <- !strip_empty_iff. split; [discriminate|].
      intros [He _]. contradiction.
Qed.

End Ops.

(** ** The further properties on scripted runs *)

Lemma setattr_getattr_run :
  exists bag,
    ObjectDict.__setattr__ Script.new_bag "origin" (VStr "u") = Ok bag
    /\ ObjectDict.getattr bag "origin" = Some (VStr "u")
    /\ forall k, k <> "origin" -> k <> ObjectDict.values_attr ->
         ObjectDict.getattr bag k = ObjectDict.getattr Script.new_bag k.
Proof.
  eexists. split; [reflexivity|].
  apply (setattr_getattr Script.new_bag "origin" (VStr "u")). reflexivity.
Defined.

Lemma setattr_declared_run :
  exists bag,
    ObjectDict.__setattr__ Script.new_bag "origin" (VStr "u") = Ok bag
    /\ ObjectDict.declared bag = ["origin"].
Proof.
  eexists. split; [reflexivity|].
  refine (proj1 (setattr_declared Script.new_bag "origin" (VStr "u") _ _) _);
    reflexivity.
Defined.

Lemma setattr_raises_iff_run :
  exists e, ObjectDict.__setattr__ Script.new_bag "__class__" (VStr "u") = Raise e.
Proof.
  apply (proj2 (setattr_raises_iff Script.new_bag "__class__" (VStr "u"))).
  left. reflexivity.
Defined.

Lemma values_clobbered_run :
  (forall l, VObj {[ "append" := VStr "u" ]} <> VList l)
  /\ exists bag,
       ObjectDict.__setattr__ Script.new_bag ObjectDict.values_attr
         (VObj {[ "append" := VStr "u" ]}) = Ok bag
       /\ forall key v', public key ->
            ObjectDict.__setattr__ bag key v'
            = Raise (ObjectDict.TypeError "append").
Proof.
  split; [discriminate|].
  destruct (values_clobbered Script.new_bag
              (VObj {[ "append" := VStr "u" ]}))
    as (bag & Hset & Hlater); [discriminate|].
  exists bag. split; [exact Hset|].
  intros key v' Hp. exact (Hlater key v' Hp).
Defined.

Lemma get_remotes_public_run :
  Script.RunCmd (query cmd_remote "repo") Script.remote_replies
  = (Returned 0 ("origin" ++ Script.nl ++ "upstream" ++ Script.nl),
     Script.url_replies)
  /\ Forall public ["origin"; "upstream"]
  /\ lookups Script.RunCmd "repo" ["origin"; "upstream"] Script.url_replies
     = Some (["https://a/x.git"; "git@b:y.git"], [])
  /\ exists bag w',
       _get_remotes Script.RunCmd Script.repo
         (Script.start Script.remote_replies) = (Ok bag, w')
       /\ ObjectDict.declared bag = ["origin"; "upstream"]
       /\ cmds_of (issued (Script.start Script.remote_replies) w')
          = [cmd_remote; cmd_url "origin"; cmd_url "upstream"]
       /\ nested_attr bag "upstream" "url" = Some (VStr "git@b:y.git").
Proof.
  split; [reflexivity|]. split; [repeat constructor|].
  split; [reflexivity|].
  destruct (get_remotes_public Script.RunCmd Script.repo
              (Script.start Script.remote_replies) 0
              ("origin" ++ Script.nl ++ "upstream" ++ Script.nl)
              Script.url_replies ["https://a/x.git"; "git@b:y.git"] []
              eq_refl)
    as (bag & w' & Hrun & _ & Hdecl & _ & _ & Hcmds & Hurl).
  - repeat constructor.
  - reflexivity.
  - exists bag, w'. split; [exact Hrun|]. split; [exact Hdecl|].
    split; [exact Hcmds|].
    refine (Hurl _ 1%nat "upstream" "git@b:y.git" eq_refl eq_refl).
    change (NoDup ["origin"; "upstream"]).
    apply NoDup_cons. split; [|apply NoDup_singleton].
    rewrite list_elem_of_singleton. discriminate.
Defined.

Lemma get_remotes_lookup_raises_run :
  Script.RunCmd (query cmd_remote "repo") Script.second_lookup_raises
  = (Returned 0 ("origin" ++ Script.nl ++ "upstream" ++ Script.nl),
     tail Script.second_lookup_raises)
  /\ PyStr.split PyStr.newline
       (PyStr.strip ("origin" ++ Script.nl ++ "upstream" ++ Script.nl))
     = (["origin"] ++ "upstream" :: [])%list
  /\ Forall public ["origin"]
  /\ lookups Script.RunCmd "repo" ["origin"]
       (tail Script.second_lookup_raises)
     = Some (["https://a/x.git"], [(cmd_url "upstream", Raised Script.OSError)])
  /\ Script.RunCmd (query (cmd_url "upstream") "repo")
       [(cmd_url "upstream", Raised Script.OSError)]
     = (Raised Script.OSError, [])
  /\ exists w',
       _get_remotes Script.RunCmd Script.repo
         (Script.start Script.second_lookup_raises)
       = (Raise Script.OSError, w')
       /\ env w' = []
       /\ logs w' = []
       /\ cmds_of (issued (Script.start Script.second_lookup_raises) w')
          = [cmd_remote; cmd_url "origin"; cmd_url "upstream"].
Proof.
  split; [reflexivity|]. split; [reflexivity|].
  split; [repeat constructor|]. split; [reflexivity|].
  split; [reflexivity|].
  apply (get_remotes_lookup_raises Script.RunCmd Script.repo
           (Script.start Script.second_lookup_raises) 0
           ("origin" ++ Script.nl ++ "upstream" ++ Script.nl)
           (tail Script.second_lookup_raises)
           ["origin"] "upstream" [] ["https://a/x.git"]
           [(cmd_url "upstream", Raised Script.OSError)]
           Script.OSError []);
    try reflexivity.
  repeat constructor.
Defined.

Lemma construct_directory_fields_run :
  Script.isdir (env (Script.start Script.repo_replies)) "repo" = true
  /\ exists self w',
       Repo_new Script.RunCmd Script.isdir "repo"
         (Script.start Script.repo_replies) = (Ok self, w')
       /\ _path self = "repo"
       /\ exists_ self = true
       /\ url self = None
       /\ initalized self = Script.isdir (env w') (path_join_git "repo")
       /\ logs w' = logs (Script.start Script.repo_replies)
       /\ exists b c x,
            trimmed_outputs cmd_branch
              (issued (Script.start Script.repo_replies) w') = [b]
            /\ active_branch self = Some b
            /\ trimmed_outputs cmd_head
                 (issued (Script.start Script.repo_replies) w') = [c]
            /\ head self = Some (head_record c)
            /\ trimmed_outputs cmd_bare
                 (issued (Script.start Script.repo_replies) w') = [x]
            /\ bare self = caseless_eqb x "true".
Proof.
  split; [reflexivity|].
  eexists _, _. split; [vm_compute; reflexivity|].
  apply (construct_directory_fields Script.RunCmd Script.isdir "repo");
    [reflexivity | vm_compute; reflexivity].
Defined.


Lemma construct_calls_in_directory_run :
  exists r w',
    Repo_new Script.RunCmd Script.isdir "repo"
      (Script.start Script.failing_replies) = (r, w')
    /\ Forall (in_directory "repo")
         (issued (Script.start Script.failing_replies) w').
Proof.
  eexists _, _. split; [vm_compute; reflexivity|].
  apply (construct_calls_in_directory Script.RunCmd Script.isdir "repo"
           (Script.start Script.failing_replies) (Raise Script.OSError)).
  vm_compute; reflexivity.
Defined.

Lemma refresh_invariants_run :
  exists r self' w',
    _update_from_git Script.RunCmd Script.isdir
      (set_exists true Script.repo, Script.start Script.failing_replies)
    = (r, (self', w'))
    /\ _path self' = "repo"
    /\ url self' = None
    /\ (exists_ (set_exists true Script.repo) = true -> exists_ self' = true)
    /\ Forall (in_directory "repo")
         (issued (Script.start Script.failing_replies) w').
Proof.
  eexists _, _, _. split; [vm_compute; reflexivity|].
  apply (refresh_invariants Script.RunCmd Script.isdir
           (set_exists true Script.repo)
           (Script.start Script.failing_replies) (Raise Script.OSError)).
  vm_compute; reflexivity.
Defined.

Lemma refresh_reads_path_and_url_run :
  _path Script.repo = _path (set_dirty true (set_bare false Script.repo))
  /\ url Script.repo = url (set_dirty true (set_bare false Script.repo))
  /\ Script.isdir (env (Script.start Script.repo_replies)) "repo" = true
  /\ exists s' w',
       _update_from_git Script.RunCmd Script.isdir
         (Script.repo, Script.start Script.repo_replies) = (Ok tt, (s', w'))
       /\ _update_from_git Script.RunCmd Script.isdir
            (set_dirty true (set_bare false Script.repo),
             Script.start Script.repo_replies) = (Ok tt, (s', w')).
Proof.
  split; [reflexivity|]. split; [reflexivity|]. split; [reflexivity|].
  eexists _, _. split; [vm_compute; reflexivity|].
  apply (refresh_reads_path_and_url Script.RunCmd Script.isdir Script.repo);
    [reflexivity | reflexivity | reflexivity | vm_compute; reflexivity].
Defined.

Lemma fetch_pull_by_exit_code_run :
  fetch Script.RunCmd Script.repo (Script.start Script.fetch_fails)
  = (Ok false,
     mkWorld []
       [mkCall (query "git fetch" "repo")
          (Returned 1 ("fatal: no remote" ++ Script.nl))]
       [mkLog ERROR (MsgText "fatal: no remote")]).
Proof.
  exact (proj1 (fetch_pull_by_exit_code Script.RunCmd Script.repo
                  (Script.start Script.fetch_fails))
           1 ("fatal: no remote" ++ Script.nl) [] eq_refl).
Defined.

Lemma checkout_by_exit_code_run :
  (Some "main" = Some "main"
   \/ (Some "main" = None /\ Some "0a1b2c3" = Some "main"))
  /\ Script.RunCmd (query ("git checkout " ++ "main") "repo")
       Script.checkout_fails
     = (Returned 1 ("error: pathspec" ++ Script.nl), [])
  /\ checkout Script.RunCmd Script.repo (Some "main") (Some "0a1b2c3")
       (Script.start Script.checkout_fails)
     = (Ok false,
        mkWorld []
          [mkCall (query "git checkout main" "repo")
             (Returned 1 ("error: pathspec" ++ Script.nl))]
          [mkLog DEBUG (MsgText "error: pathspec")]).
Proof.
  split; [left; reflexivity|]. split; [reflexivity|].
  apply (checkout_by_exit_code Script.RunCmd Script.repo
           (Some "main") (Some "0a1b2c3") "main"
           (Script.start Script.checkout_fails) 1
           ("error: pathspec" ++ Script.nl) []);
    [left; reflexivity | reflexivity].
Defined.

Lemma checkout_raises_iff_run :
  (exists e w',
      checkout Script.RunCmd Script.repo None None
        (Script.start Script.checkout_fails) = (Raise e, w'))
  /\ checkout Script.RunCmd Script.repo None None
       (Script.start Script.checkout_fails)
     = (Raise (UnboundLocalError "cmd"), Script.start Script.checkout_fails).
Proof.
  destruct (checkout_raises_iff Script.RunCmd Script.repo None None
              (Script.start Script.checkout_fails)) as [Hiff Hnone].
  split; [apply (proj2 Hiff); left; split; reflexivity|].
  apply Hnone; reflexivity.
Defined.

Lemma operations_propagate_run :
  Script.RunCmd (query "git fetch" "repo") Script.fetch_raises
  = (Raised Script.OSError, [])
  /\ fetch Script.RunCmd Script.repo (Script.start Script.fetch_raises)
     = (Raise Script.OSError,
        after_call (Script.start Script.fetch_raises)
          (query "git fetch" "repo") (Raised Script.OSError) []).
Proof.
  split; [reflexivity|].
  apply (proj1 (operations_propagate Script.RunCmd Script.repo
                  (Script.start Script.fetch_raises) Script.OSError [])).
  reflexivity.
Defined.

Lemma clone_from_ignores_exit_code_run :
  Script.RunCmd (clone_args "https://a/x.git" "elsewhere" false)
    Script.clone_fails
  = (Returned 128 "fatal: repository not found", [])
  /\ Script.isdir [] "elsewhere" = false
  /\ exists self w',
       clone_from Script.RunCmd Script.isdir "https://a/x.git" "elsewhere"
         false (Script.start Script.clone_fails) = (Ok self, w')
       /\ self = default_repo "elsewhere"
       /\ exists_ self = false
       /\ env w' = []
       /\ issued (Script.start Script.clone_fails) w'
          = [mkCall (clone_args "https://a/x.git" "elsewhere" false)
               (Returned 128 "fatal: repository not found")]
       /\ logs w'
          = (logs (Script.start Script.clone_fails)
               ++ [mkLog DEBUG
                     (MsgText ("Cloning " ++ "https://a/x.git" ++ " into "
                                 ++ "elsewhere"))])%list.
Proof.
  split; [reflexivity|]. split; [reflexivity|].
  apply (clone_from_ignores_exit_code Script.RunCmd Script.isdir
           "https://a/x.git" "elsewhere" false
           (Script.start Script.clone_fails) 128
           "fatal: repository not found" []); reflexivity.
Defined.

Lemma clone_from_runner_raises_run :
  Script.RunCmd (clone_args "https://a/x.git" "elsewhere" false)
    Script.clone_raises
  = (Raised Script.OSError, [])
  /\ clone_from Script.RunCmd Script.isdir "https://a/x.git" "elsewhere"
       false (Script.start Script.clone_raises)
     = (Raise Script.OSError,
        after_call
          (after_log (Script.start Script.clone_raises) DEBUG
             (MsgText ("Cloning " ++ "https://a/x.git" ++ " into "
                         ++ "elsewhere")))
          (clone_args "https://a/x.git" "elsewhere" false)
          (Raised Script.OSError) []).
Proof.
  split; [reflexivity|].
  apply (clone_from_runner_raises Script.RunCmd Script.isdir
           "https://a/x.git" "elsewhere" false
           (Script.start Script.clone_raises) Script.OSError []).
  reflexivity.
Defined.

Lemma dirty_clean_iff_blank_run :
  Script.RunCmd (query cmd_status "repo") Script.clean_replies
  = (Returned 0 Script.nl, [(cmd_unpushed, Returned 0 "")])
  /\ Script.RunCmd (query cmd_unpushed "repo") [(cmd_unpushed, Returned 0 "")]
     = (Returned 0 "", [])
  /\ exists d w',
       _get_dirty Script.RunCmd Script.repo
         (Script.start Script.clean_replies) = (Ok d, w')
       /\ (d = false <-> blank Script.nl = true /\ blank "" = true).
Proof.
  split; [reflexivity|]. split; [reflexivity|].
  apply (dirty_clean_iff_blank Script.RunCmd Script.repo
           (Script.start Script.clean_replies) 0 Script.nl
           [(cmd_unpushed, Returned 0 "")] 0 "" []); reflexivity.
Defined.
